(** * legion CLI: confirmation of deploy / scale / undeploy operations

    A shallow embedding of the wait-for-completion core of
    [legion/legion/cli.py] and of the commands around it:

    - [build_model]                    (cli.py, lines 46-97)
    - [inspect_kubernetes]             (cli.py, lines 100-174)
    - [get_related_model_deployments]  (cli.py, lines 177-196)
    - [wait_operation_finish]          (cli.py, lines 199-239)
    - [check_all_scaled]               (cli.py, lines 242-260)
    - [undeploy_kubernetes], [scale_kubernetes], [deploy_kubernetes]
                                       (cli.py, lines 263-323)
    - [sandbox]                        (cli.py, lines 326-365)

    Python lists are objects of a store and are passed by reference; the EDI
    client, the wall clock and [time.sleep] are effects of a state-and-error
    monad whose state also records the trace of the effects performed.  The
    client that [legion.external.edi.build_client(args)] builds is the
    [remote] the functions are given; the [LOGGER] calls are left out. *)

From Stdlib Require Import ZArith QArith Qround Lia Lqa.
From stdpp Require Import gmap strings list pretty.

Local Open Scope Z_scope.

(** ** Data model *)

(** [legion.k8s.ModelDeploymentDescription], as far as the CLI reads it.  The
    class itself is defined outside of cli.py; [id_and_version] is one of its
    attributes and is kept as such.  [model_api_ok] may be [None] in Python,
    which is falsy. *)
Record ModelDeploymentDescription : Type := {
  model : string;
  version : string;
  id_and_version : string;
  image : string;
  scale : Z;
  ready_replicas : Z;
  status : string;
  model_api_ok : option bool
}.

(** Python truthiness of a value of type [typing.Optional[bool]]. *)
Definition truthy (v : option bool) : bool :=
  match v with
  | Some true => true
  | Some false | None => false
  end.

(** The set comprehension of lines 187-191. *)
Definition affected_deployment_ids
    (affected_deployments : list ModelDeploymentDescription) : gset string :=
  list_to_set (id_and_version <$> affected_deployments).

(** The list comprehension of lines 194-196. *)
Definition related_deployments (ids : gset string)
    (actual_deployments_status : list ModelDeploymentDescription)
    : list ModelDeploymentDescription :=
  filter (λ deploy, id_and_version deploy ∈ ids) actual_deployments_status.

(** [check_all_scaled], lines 242-260. *)
Definition check_all_scaled
    (deployments_status : list ModelDeploymentDescription)
    (expected_scale expected_count : Z) : bool :=
  let finally_deployed_models :=
    filter (λ deployment,
              Is_true ((ready_replicas deployment =? expected_scale)
                       && truthy (model_api_ok deployment)))
           deployments_status in
  Z.of_nat (length finally_deployed_models) =? expected_count.

(** ** Effects: the store, the clock and the EDI client *)

(** Exceptions.  [Exception msg] is raised by cli.py itself with the given
    message; [ClientError] stands for whatever a call of the EDI client
    raises. *)
Inductive exn : Type :=
  | Exception (msg : string)
  | ClientError (detail : string).

(** The three requests cli.py sends through [legion.external.edi.EdiClient],
    with the arguments of lines 273-276, 294 and 315-316. *)
Inductive request : Type :=
  | Undeploy (model_id : string) (grace_period : Z)
             (model_version : option string) (ignore_not_found : bool)
  | Scale (model_id : string) (new_scale : Z) (model_version : option string)
  | Deploy (image_name : string) (model_iam_role : option string) (new_scale : Z)
           (livenesstimeout readinesstimeout : Z).

(** Observable effects, in the order they happen. *)
Inductive event : Type :=
  | EvTime (reading : Q)
  | EvRequest (r : request)
  | EvInspect
  | EvSleep (seconds : Z).

(** The world outside of the process: the [n]-th call of [time.time()]
    returns [clock n] (time spent in network calls and in [time.sleep] shows
    in the readings), the [n]-th call of [client.inspect()] answers
    [inspect_reply n], and a request is answered by [dispatch_reply]; [inl]
    is a raised error.  Clock readings are the rationals that the floats
    denote, and [minus now start] is what the interpreter computes for
    [now - start] at line 222: the difference of two floats is their exact
    difference, rounded to a float. *)
Record remote : Type := {
  clock : nat → Q;
  minus : Q → Q → Q;
  inspect_reply : nat → string + list ModelDeploymentDescription;
  dispatch_reply : request → string + list ModelDeploymentDescription
}.

(** References to list objects are indices into the store. *)
Definition loc : Type := nat.

Record state : Type := {
  heap : list (list ModelDeploymentDescription);
  ticks : nat;
  polls : nat;
  trace : list event
}.

Definition contents (h : list (list ModelDeploymentDescription)) (r : loc)
    : list ModelDeploymentDescription :=
  default [] (h !! r).

Inductive outcome (A : Type) : Type :=
  | Returned (a : A)
  | Raised (e : exn)
  | Diverged.
Arguments Returned {A} a.
Arguments Raised {A} e.
Arguments Diverged {A}.

Definition M (A : Type) : Type := state → outcome A * state.

Definition ret {A} (a : A) : M A := λ st, (Returned a, st).

Definition bind {A B} (c : M A) (k : A → M B) : M B :=
  λ st, match c st with
        | (Returned a, st') => k a st'
        | (Raised e, st') => (Raised e, st')
        | (Diverged, st') => (Diverged, st')
        end.

Definition raise {A} (e : exn) : M A := λ st, (Raised e, st).

Definition out_of_fuel {A} : M A := λ st, (Diverged, st).

Notation "x <- c ;; k" := (bind c (λ x, k))
  (at level 100, c at next level, right associativity).
Notation "c ;;; k" := (bind c (λ _, k))
  (at level 100, right associativity).

Definition log (e : event) (st : state) : state :=
  {| heap := heap st; ticks := ticks st; polls := polls st;
     trace := trace st ++ [e] |}.

(** Creation of a new list object. *)
Definition alloc (l : list ModelDeploymentDescription) : M loc :=
  λ st, (Returned (length (heap st)),
         {| heap := heap st ++ [l]; ticks := ticks st; polls := polls st;
            trace := trace st |}).

(** Reading a list object. *)
Definition deref (r : loc) : M (list ModelDeploymentDescription) :=
  λ st, (Returned (contents (heap st) r), st).

Section Effects.
Variable srv : remote.

(** [time.time()] *)
Definition time_time : M Q :=
  λ st, let now := clock srv (ticks st) in
        (Returned now,
         log (EvTime now)
             {| heap := heap st; ticks := S (ticks st); polls := polls st;
                trace := trace st |}).

(** [time.sleep(seconds)] *)
Definition time_sleep (seconds : Z) : M unit :=
  λ st, (Returned tt, log (EvSleep seconds) st).

(** [client.inspect()]: one status query; the answer is a new list. *)
Definition inspect : M loc :=
  λ st, let st' := log EvInspect
                     {| heap := heap st; ticks := ticks st;
                        polls := S (polls st); trace := trace st |} in
        match inspect_reply srv (polls st) with
        | inl e => (Raised (ClientError e), st')
        | inr snapshot => alloc snapshot st'
        end.

(** [client.undeploy(...)], [client.scale(...)], [client.deploy(...)]: one
    request; the answer is a new list. *)
Definition dispatch (r : request) : M loc :=
  λ st, let st' := log (EvRequest r) st in
        match dispatch_reply srv r with
        | inl e => (Raised (ClientError e), st')
        | inr affected => alloc affected st'
        end.

(** [get_related_model_deployments], lines 177-196. *)
Definition get_related_model_deployments (affected_deployments : loc) : M loc :=
  affected <- deref affected_deployments ;;
  let ids := affected_deployment_ids affected in
  actual_deployments_status <- inspect ;;
  actual <- deref actual_deployments_status ;;
  alloc (related_deployments ids actual).

End Effects.

(** ** The wait loop and the three operations *)

(** The fields of [argparse.Namespace] the operations read. *)
Module args.
Record t : Type := {
  no_wait : bool;
  timeout : Z;
  model_id : string;
  model_version : option string;
  grace_period : Z;
  ignore_not_found : bool;
  scale : Z;
  image : string;
  model_iam_role : option string;
  livenesstimeout : Z;
  readinesstimeout : Z
}.
End args.

(** A [wait_callback] is called with the list of statuses; the closures of
    cli.py also read the list of affected deployments they captured.  A
    callback observes the store and answers [typing.Optional[bool]]. *)
Definition callback : Type :=
  list (list ModelDeploymentDescription) → loc → option bool.

Definition call (wait_callback : callback) (statuses : loc) : M (option bool) :=
  λ st, (Returned (wait_callback (heap st) statuses), st).

(** [elapsed > args.timeout], line 223. *)
Definition exceeds (elapsed : Q) (timeout : Z) : bool :=
  negb (Qle_bool elapsed (inject_Z timeout)).

Definition invalid_timeout : exn :=
  Exception "Invalid --timeout argument: should be positive integer".

Definition time_out : exn :=
  Exception "Time out: operation has not been confirmed".

Section Operations.
Variable srv : remote.

(** The [while True] loop of lines 221-239; [fuel] bounds the number of
    iterations the model follows. *)
Fixpoint wait_loop (fuel : nat) (a : args.t) (model_deployments : loc)
    (wait_callback : callback) (start : Q) : M unit :=
  match fuel with
  | O => out_of_fuel
  | S fuel' =>
      now <- time_time srv ;;
      let elapsed := minus srv now start in
      if exceeds elapsed (args.timeout a) then raise time_out
      else
        affected_deployments_status <-
          get_related_model_deployments srv model_deployments ;;
        result <- call wait_callback affected_deployments_status ;;
        if truthy result then ret tt
        else
          time_sleep 1 ;;;
          wait_loop fuel' a model_deployments wait_callback start
  end.

(** [wait_operation_finish], lines 199-239. *)
Definition wait_operation_finish (fuel : nat) (a : args.t)
    (model_deployments : loc) (wait_callback : callback) : M unit :=
  if negb (args.no_wait a) then
    start <- time_time srv ;;
    if args.timeout a <=? 0 then raise invalid_timeout
    else wait_loop fuel a model_deployments wait_callback start
  else ret tt.

(** The lambda of line 281: [not affected_deployments_status]. *)
Definition undeploy_callback : callback :=
  λ h affected_deployments_status,
    Some (match contents h affected_deployments_status with
          | [] => true
          | _ :: _ => false
          end).

(** The lambda of lines 299-301 and 321-323; [len(model_deployments)] is
    evaluated at each call. *)
Definition scaled_callback (a : args.t) (model_deployments : loc) : callback :=
  λ h affected_deployments_status,
    Some (check_all_scaled (contents h affected_deployments_status)
            (args.scale a)
            (Z.of_nat (length (contents h model_deployments)))).

(** [undeploy_kubernetes], lines 263-281. *)
Definition undeploy_kubernetes (fuel : nat) (a : args.t) : M unit :=
  model_deployments <-
    dispatch srv (Undeploy (args.model_id a) (args.grace_period a)
                    (args.model_version a) (args.ignore_not_found a)) ;;
  wait_operation_finish fuel a model_deployments undeploy_callback.

(** [scale_kubernetes], lines 284-301. *)
Definition scale_kubernetes (fuel : nat) (a : args.t) : M unit :=
  model_deployments <-
    dispatch srv (Scale (args.model_id a) (args.scale a) (args.model_version a)) ;;
  wait_operation_finish fuel a model_deployments
    (scaled_callback a model_deployments).

(** [deploy_kubernetes], lines 304-323. *)
Definition deploy_kubernetes (fuel : nat) (a : args.t) : M unit :=
  model_deployments <-
    dispatch srv (Deploy (args.image a) (args.model_iam_role a) (args.scale a)
                    (args.livenesstimeout a) (args.readinesstimeout a)) ;;
  wait_operation_finish fuel a model_deployments
    (scaled_callback a model_deployments).

End Operations.

(** The number of status queries and of sleeps in a trace. *)
Definition is_inspect (e : event) : bool :=
  match e with EvInspect => true | _ => false end.

Definition is_sleep (e : event) : bool :=
  match e with EvSleep _ => true | _ => false end.

Definition is_network (e : event) : bool :=
  match e with EvInspect | EvRequest _ => true | _ => false end.

Definition count (p : event → bool) (tr : list event) : nat :=
  length (filter (λ e, Is_true (p e)) tr).

Definition init : state :=
  {| heap := []; ticks := O; polls := O; trace := [] |}.

(** The events of one unconfirmed iteration that reads the clock for the
    [t]-th time, and of [k] such iterations in a row. *)
Definition round (srv : remote) (t : nat) : list event :=
  [EvTime (clock srv t); EvInspect; EvSleep 1].

Definition rounds (srv : remote) (t k : nat) : list event :=
  flat_map (round srv) (seq t k).

(** What one poll adds to the store: the snapshot and its filtered copy. *)
Definition poll_cells (ids : gset string)
    (snapshot : list ModelDeploymentDescription)
    : list (list ModelDeploymentDescription) :=
  [snapshot; related_deployments ids snapshot].

(** The composite identity of [d] is the composite identity of one of the
    affected deployments. *)
Definition identity_in (affected : list ModelDeploymentDescription)
    (d : ModelDeploymentDescription) : Prop :=
  id_and_version d ∈ (id_and_version <$> affected).

#[global] Instance identity_in_dec affected d : Decision (identity_in affected d).
Proof. unfold identity_in. apply _. Defined.

(** A descriptor counts for [check_all_scaled] in the words of the
    specification: its ready-replica count is the expected scale and its
    endpoint answers. *)
Definition qualifying (expected_scale : Z) (d : ModelDeploymentDescription) : Prop :=
  ready_replicas d = expected_scale ∧ model_api_ok d = Some true.

#[global] Instance qualifying_dec expected_scale d :
  Decision (qualifying expected_scale d).
Proof. unfold qualifying. apply _. Defined.

(** A poll that does not end the loop: the clock reading [t] is within the
    deadline, the status query [p] answers, and the callback is falsy on the
    filtered answer. *)
Definition pending_poll (srv : remote) (a : args.t) (model_deployments : loc)
    (wait_callback : callback) (affected : list ModelDeploymentDescription)
    (start : Q) (t p : nat) : Prop :=
  (minus srv (clock srv t) start <= inject_Z (args.timeout a))%Q ∧
  ∃ snapshot,
    inspect_reply srv p = inr snapshot ∧
    ∀ h r,
      contents h r = related_deployments (affected_deployment_ids affected) snapshot →
      contents h model_deployments = affected →
      truthy (wait_callback h r) = false.

(** The states a loop iteration goes through. *)
Definition ticked (srv : remote) (st : state) : state :=
  {| heap := heap st; ticks := S (ticks st); polls := polls st;
     trace := trace st ++ [EvTime (clock srv (ticks st))] |}.

Definition polled (ids : gset string)
    (snapshot : list ModelDeploymentDescription) (st : state) : state :=
  {| heap := heap st ++ poll_cells ids snapshot; ticks := ticks st;
     polls := S (polls st); trace := trace st ++ [EvInspect] |}.

Definition unanswered (st : state) : state :=
  {| heap := heap st; ticks := ticks st; polls := S (polls st);
     trace := trace st ++ [EvInspect] |}.

(** The state after a request that was answered with the list [affected]. *)
Definition requested (r : request)
    (affected : list ModelDeploymentDescription) (st : state) : state :=
  {| heap := heap st ++ [affected]; ticks := ticks st; polls := polls st;
     trace := trace st ++ [EvRequest r] |}.

(** The state after an iteration that goes on to sleep. *)
Definition next (srv : remote) (ids : gset string)
    (snapshot : list ModelDeploymentDescription) (st : state) : state :=
  log (EvSleep 1) (polled ids snapshot (ticked srv st)).

(** ** Scenarios *)

(** A descriptor with the given identity, ready-replica count and endpoint
    flag. *)
Definition deployment (i : string) (ready : Z) (ok : option bool)
    : ModelDeploymentDescription :=
  {| model := i; version := "1.0"; id_and_version := i; image := "legion/model";
     scale := ready; ready_replicas := ready; status := "ok";
     model_api_ok := ok |}.

Definition cli_args (nw : bool) (deadline new_scale : Z) : args.t :=
  {| args.no_wait := nw; args.timeout := deadline; args.model_id := "m";
     args.model_version := None; args.grace_period := 0;
     args.ignore_not_found := false; args.scale := new_scale;
     args.image := "legion/model"; args.model_iam_role := None;
     args.livenesstimeout := 2; args.readinesstimeout := 2 |}.

(** A clock that advances one second per reading. *)
Definition seconds (n : nat) : Q := inject_Z (Z.of_nat n).

Definition two_affected : list ModelDeploymentDescription :=
  [deployment "a" 1 (Some true); deployment "b" 1 (Some true)].

Definition three_listed : list ModelDeploymentDescription :=
  [deployment "b" 3 (Some true); deployment "c" 3 None;
   deployment "a" 3 (Some false)].

(** Both affected deployments stay listed for ever. *)
Definition srv_stuck : remote :=
  {| clock := seconds; minus := Qminus;
     inspect_reply := λ _, inr three_listed;
     dispatch_reply := λ _, inr two_affected |}.

(** The affected deployments are gone from the second status query on. *)
Definition srv_gone : remote :=
  {| clock := seconds; minus := Qminus;
     inspect_reply := λ n, match n with
                           | O => inr three_listed
                           | S _ => inr [deployment "c" 3 None]
                           end;
     dispatch_reply := λ _, inr two_affected |}.

(** The status query raises. *)
Definition srv_down : remote :=
  {| clock := seconds; minus := Qminus;
     inspect_reply := λ _, inl "connection refused";
     dispatch_reply := λ _, inr two_affected |}.

(** The request itself raises. *)
Definition srv_rejects : remote :=
  {| clock := seconds; minus := Qminus;
     inspect_reply := λ _, inr three_listed;
     dispatch_reply := λ _, inl "403 Forbidden" |}.

(** The request affects nothing. *)
Definition srv_none : remote :=
  {| clock := seconds; minus := Qminus;
     inspect_reply := λ _, inr three_listed;
     dispatch_reply := λ _, inr [] |}.

(** A deploy of three models at scale 3: the first two status queries show
    one of them with two ready replicas, the third shows all three ready. *)
Definition three_affected : list ModelDeploymentDescription :=
  [deployment "a" 0 None; deployment "b" 0 None; deployment "c" 0 None].

Definition srv_rollout : remote :=
  {| clock := seconds; minus := Qminus;
     inspect_reply := λ n,
       match n with
       | O | 1%nat => inr [deployment "a" 2 (Some true); deployment "z" 3 (Some true)]
       | _ => inr [deployment "a" 3 (Some true); deployment "z" 3 (Some true);
                   deployment "b" 3 (Some true); deployment "c" 3 (Some true)]
       end;
     dispatch_reply := λ _, inr three_affected |}.

(** A store that holds the list of affected deployments at reference 0. *)
Definition dispatched : state :=
  {| heap := [two_affected]; ticks := O; polls := O; trace := [] |}.

(** The first status query answers, the second raises. *)
Definition srv_flaky : remote :=
  {| clock := seconds; minus := Qminus;
     inspect_reply := λ n, match n with
                           | O => inr three_listed
                           | S _ => inl "502 Bad Gateway"
                           end;
     dispatch_reply := λ _, inr two_affected |}.

(** Subtraction of floats whose difference lies between 4 and 8: the exact
    difference rounded to the nearest multiple of 2^-50. *)
Definition minus_near_five (x y : Q) : Q :=
  (inject_Z (Qfloor ((x - y) * inject_Z (2 ^ 50) + (1 # 2))) / inject_Z (2 ^ 50))%Q.

(** The wait starts at 1 - 2^-53 seconds; the loop reads 6, 7, 8, ...  The
    first elapsed time is 5 + 2^-53 exactly and 5 as a float. *)
Definition srv_rounding : remote :=
  {| clock := λ n, match n with
                   | O => (9007199254740991 # 9007199254740992)%Q
                   | S k => inject_Z (6 + Z.of_nat k)
                   end;
     minus := minus_near_five;
     inspect_reply := λ _, inr three_listed;
     dispatch_reply := λ _, inr two_affected |}.

(** A clock that stands still. *)
Definition srv_frozen : remote :=
  {| clock := λ _, 0%Q; minus := Qminus;
     inspect_reply := λ _, inr three_listed;
     dispatch_reply := λ _, inr two_affected |}.

(** ** Polls that leave an operation unconfirmed *)

(** A poll during an undeploy that still lists an affected deployment: the
    clock reading [t] is within the deadline, the status query [p] answers,
    and some listed descriptor has the identity of an affected deployment. *)
Definition still_listed (srv : remote) (a : args.t)
    (affected : list ModelDeploymentDescription) (start : Q) (t p : nat) : Prop :=
  (minus srv (clock srv t) start <= inject_Z (args.timeout a))%Q ∧
  ∃ snapshot,
    inspect_reply srv p = inr snapshot ∧
    related_deployments (affected_deployment_ids affected) snapshot ≠ [].

(** A poll during a scale or deploy at which the number of qualifying
    descriptors among the affected ones is not yet the number of affected
    deployments. *)
Definition not_yet_scaled (srv : remote) (a : args.t)
    (affected : list ModelDeploymentDescription) (start : Q) (t p : nat) : Prop :=
  (minus srv (clock srv t) start <= inject_Z (args.timeout a))%Q ∧
  ∃ snapshot,
    inspect_reply srv p = inr snapshot ∧
    length (filter (qualifying (args.scale a))
              (related_deployments (affected_deployment_ids affected) snapshot))
    ≠ length affected.

(** ** [inspect_kubernetes]: the listing of the deployments *)

(** [legion.utils.Colors], defined outside of cli.py: the escape sequences
    the listing is decorated with. *)
Module Colors.
Record t : Type := {
  OKGREEN : string;
  WARNING : string;
  FAIL : string;
  BOLD : string;
  ENDC : string;
  UNDERLINE : string
}.
End Colors.

Definition INSPECT_FORMAT_COLORIZED : string := "colorized".
Definition INSPECT_FORMAT_TABULAR : string := "column".

(** The fields of [argparse.Namespace] that [inspect_kubernetes] reads. *)
Module inspect_args.
Record t : Type := {
  model_id : option string;
  model_version : option string;
  format : string
}.
End inspect_args.

(** An element of [data], lines 130-134: a dict with the keys
    ['deployment'], ['errors'] and ['line_color']. *)
Record inspect_item : Type := {
  item_deployment : ModelDeploymentDescription;
  item_errors : string;
  item_line_color : string
}.

(** Python truthiness of a string. *)
Definition non_empty (s : string) : bool :=
  match s with
  | EmptyString => false
  | String _ _ => true
  end.

(** The body of the loop of lines 114-134. *)
Definition inspect_data_item (c : Colors.t)
    (deployment : ModelDeploymentDescription) : inspect_item :=
  let line_color :=
    if String.eqb (status deployment) "ok" && truthy (model_api_ok deployment)
    then Colors.OKGREEN c
    else if String.eqb (status deployment) "warning"
    then Colors.WARNING c
    else Colors.FAIL c in
  let errors := "" in
  let errors :=
    if negb (truthy (model_api_ok deployment))
    then "MODEL API DOES NOT RESPOND" else errors in
  let errors := if non_empty errors then "ERROR: " +:+ errors else errors in
  {| item_deployment := deployment; item_errors := errors;
     item_line_color := line_color |}.

(** The line printed for one deployment in the colorized format, lines
    141-148; [%s] and [%d] print an [int] in decimal. *)
Definition colorized_line (c : Colors.t) (item : inspect_item) : string :=
  item_line_color item +:+ "*" +:+ Colors.ENDC c +:+ " "
  +:+ Colors.UNDERLINE c +:+ model (item_deployment item) +:+ Colors.ENDC c +:+ " "
  +:+ image (item_deployment item) +:+ " (version: "
  +:+ version (item_deployment item) +:+ ") - "
  +:+ item_line_color item +:+ pretty (ready_replicas (item_deployment item))
  +:+ " / " +:+ pretty (scale (item_deployment item)) +:+ " pods ready "
  +:+ item_errors item +:+ Colors.ENDC c.

Definition headers : list string :=
  ["Model ID"; "Image"; "Version"; "Ready"; "Scale"; "Errors"].

(** An element of [items], lines 157-164. *)
Definition tabular_item (item : inspect_item) : list string :=
  [model (item_deployment item);
   image (item_deployment item);
   version (item_deployment item);
   pretty (ready_replicas (item_deployment item));
   pretty (scale (item_deployment item));
   item_errors item].

(** [val[col_idx]] and [columns_width[col_idx]]: the rows and the list of
    widths have one entry per header, so the index is always in range. *)
Definition column (val : list string) (col_idx : nat) : string :=
  default "" (val !! col_idx).

Definition width_of (columns_width : list nat) (col_idx : nat) : nat :=
  default O (columns_width !! col_idx).

(** Lines 167-168. *)
Definition columns_width (items : list (list string)) : list nat :=
  let columns_width :=
    imap (λ col_idx _, max_list ((λ val, String.length (column val col_idx)) <$> items))
         headers in
  imap (λ col_idx column, Nat.max (width_of columns_width col_idx) (String.length column))
       headers.

Fixpoint spaces (n : nat) : string :=
  match n with
  | O => ""
  | S n' => " " +:+ spaces n'
  end.

(** ['{name:{width}} '.format(name=..., width=...)]: the string padded with
    spaces on the right up to [width], never cut, and one more space. *)
Definition format_cell (name : string) (width : nat) : string :=
  name +:+ spaces (width - String.length name) +:+ " ".

(** One printed line of the table, lines 170-171 and 173-174. *)
Definition tabular_line (columns_width : list nat) (row : list string) : string :=
  String.concat "|"
    (imap (λ col_idx column, format_cell column (width_of columns_width col_idx)) row).

(** What [inspect_kubernetes] prints, one element per call of [print], for the
    list the status query returned (lines 112-174). *)
Definition inspect_output (c : Colors.t) (format : string)
    (model_deployments : list ModelDeploymentDescription) : list string :=
  let data := inspect_data_item c <$> model_deployments in
  if String.eqb format INSPECT_FORMAT_COLORIZED then
    (match data with
     | [] => []
     | _ :: _ =>
         (Colors.BOLD c +:+ "Model deployments:" +:+ Colors.ENDC c)
         :: (colorized_line c <$> data)
     end)
    ++ (match model_deployments with
        | [] => [Colors.WARNING c +:+ "-- cannot find any model deployments --"
                 +:+ Colors.ENDC c]
        | _ :: _ => []
        end)
    ++ (match data, model_deployments with
        | [], _ :: _ =>
            [Colors.WARNING c
             +:+ "-- cannot find any model deployments after filtering --"
             +:+ Colors.ENDC c]
        | _, _ => []
        end)
  else if String.eqb format INSPECT_FORMAT_TABULAR then
    let items := tabular_item <$> data in
    match data with
    | [] => []
    | _ :: _ =>
        let columns_width := columns_width items in
        tabular_line columns_width headers
        :: (tabular_line columns_width <$> items)
    end
  else [].

(** [inspect_kubernetes], lines 100-174: one status query, then the listing.
    The answer to the query made with [args.model_id] and
    [args.model_version] is the next answer of the remote. *)
Definition inspect_kubernetes (srv : remote) (c : Colors.t) (a : inspect_args.t)
    : M (list string) :=
  model_deployments <- inspect srv ;;
  listed <- deref model_deployments ;;
  ret (inspect_output c (inspect_args.format a) listed).

(** The escape sequences of a terminal, without their escape character. *)
Definition ansi : Colors.t :=
  {| Colors.OKGREEN := "[92m"; Colors.WARNING := "[93m"; Colors.FAIL := "[91m";
     Colors.BOLD := "[1m"; Colors.ENDC := "[0m"; Colors.UNDERLINE := "[4m" |}.

(** *** The table, described on its own

    What the tabular listing is expected to be, written without the code's
    helpers: the six entries of a deployment, the width of a column as the
    longest entry the column holds (its title included), a cell as the whole
    entry followed by blanks up to that width and one more blank, and a line
    as the six cells with a bar between neighbours.  [inspect_output] is
    compared with this description. *)
Definition blanks (n : nat) : string :=
  String.string_of_list_ascii (replicate n Ascii.Space).

Definition table_header : list string :=
  ["Model ID"; "Image"; "Version"; "Ready"; "Scale"; "Errors"].

Definition table_row (d : ModelDeploymentDescription) : list string :=
  [model d; image d; version d;
   pretty (ready_replicas d); pretty (scale d);
   if truthy (model_api_ok d) then "" else "ERROR: MODEL API DOES NOT RESPOND"].

Definition table_width (rows : list (list string)) (j : nat) : nat :=
  max_list ((λ row, String.length (nth j row "")) <$> (table_header :: rows)).

Definition table_cell (rows : list (list string)) (row : list string) (j : nat)
    : string :=
  nth j row ""
  +:+ blanks (table_width rows j - String.length (nth j row "")) +:+ " ".

Definition table_line (rows : list (list string)) (row : list string) : string :=
  table_cell rows row 0 +:+ "|" +:+ table_cell rows row 1 +:+ "|"
  +:+ table_cell rows row 2 +:+ "|" +:+ table_cell rows row 3 +:+ "|"
  +:+ table_cell rows row 4 +:+ "|" +:+ table_cell rows row 5.

(** A listing of three deployments: one that responds, one whose API does
    not respond, and one whose [model_api_ok] is [None]. *)
Definition listed_models : list ModelDeploymentDescription :=
  [{| model := "income"; version := "1.0"; id_and_version := "income-1.0";
      image := "legion/income:1.0"; scale := 2; ready_replicas := 2;
      status := "ok"; model_api_ok := Some true |};
   {| model := "recognize-digits"; version := "12"; id_and_version := "recognize-digits-12";
      image := "legion/digits:12"; scale := 10; ready_replicas := 0;
      status := "warning"; model_api_ok := Some false |};
   {| model := "a"; version := "3"; id_and_version := "a-3";
      image := "img"; scale := 1; ready_replicas := 1;
      status := "ok"; model_api_ok := None |}].

(** ** [sandbox]: the activation script *)

(** A regular file: what it holds and its [st_mode]. *)
Record file : Type := {
  content : string;
  st_mode : Z
}.

(** The file system, as a map from absolute paths to the regular files the
    process may read and write, and what has been printed.  Failures of the
    operating system are not modelled. *)
Record disk : Type := {
  files : gmap string file;
  stdout : list string
}.

(** What [sandbox] takes from outside of cli.py: the working directory, the
    functions of [os.path], [legion.utils.render_template], the mode of a file
    that [open(path, 'w')] creates (it depends on the umask), and [repr] of a
    string. *)
Record host : Type := {
  getcwd : string;
  abspath : string → string;
  path_join : string → string → string;
  render_template : string → list (string * string) → string;
  create_mode : Z;
  repr : string → string
}.

Module sandbox_args.
Record t : Type := {
  image : string;
  force_recreate : bool
}.
End sandbox_args.

(** [stat.S_IEXEC], octal 100. *)
Definition S_IEXEC : Z := 64.

(** [os.path.exists(path)] *)
Definition path_exists (fs : gmap string file) (path : string) : bool :=
  match fs !! path with
  | Some _ => true
  | None => false
  end.

(** [with open(path, 'w') as f: f.write(text)]: the file is created with
    the mode of new files, or truncated and keeps its mode. *)
Definition write_file (os : host) (path text : string) (fs : gmap string file)
    : gmap string file :=
  <[path := {| content := text;
               st_mode := match fs !! path with
                          | Some f => st_mode f
                          | None => create_mode os
                          end |}]> fs.

(** [os.stat(path).st_mode], for a path that exists. *)
Definition stat_mode (fs : gmap string file) (path : string) : Z :=
  match fs !! path with
  | Some f => st_mode f
  | None => 0
  end.

(** [os.chmod(path, mode)] *)
Definition chmod (path : string) (mode : Z) (fs : gmap string file)
    : gmap string file :=
  match fs !! path with
  | Some f => <[path := {| content := content f; st_mode := mode |}]> fs
  | None => fs
  end.

(** The path of the activation script, line 352. *)
Definition path_to_activate (os : host) : string :=
  abspath os (path_join os (getcwd os) "legion-activate.sh").

(** The script, lines 336-350. *)
Definition sandbox_cmd (os : host) (a : sandbox_args.t) : string :=
  let work_directory := "/work-directory" in
  let local_fs_work_directory := abspath os (getcwd os) in
  let legion_data_directory := "/opt/legion/" in
  let model_file := "model.bin" in
  let arguments :=
    [("local_fs", local_fs_work_directory);
     ("image", sandbox_args.image a);
     ("work_directory", work_directory);
     ("legion_data_directory", legion_data_directory);
     ("model_file", model_file)] in
  render_template os "sandbox-cli.sh.tmpl" arguments.

(** [sandbox], lines 326-365. *)
Definition sandbox (os : host) (a : sandbox_args.t) (w : disk) : disk :=
  let cmd := sandbox_cmd os a in
  let path_to_activate := path_to_activate os in
  if path_exists (files w) path_to_activate && negb (sandbox_args.force_recreate a)
  then
    {| files := files w;
       stdout := stdout w
                 ++ ["File " +:+ path_to_activate
                     +:+ " already existed, ignoring creation of sandbox"] |}
  else
    let fs := write_file os path_to_activate cmd (files w) in
    let current_mode := stat_mode fs path_to_activate in
    let fs := chmod path_to_activate (Z.lor current_mode S_IEXEC) fs in
    {| files := fs;
       stdout := stdout w
                 ++ ["Sandbox has been created!";
                     "To activate run " +:+ repr os path_to_activate
                     +:+ " from command line"] |}.

(** A host in the directory [/home/user], with umask 022. *)
Definition laptop : host :=
  {| getcwd := "/home/user";
     abspath := λ p, p;
     path_join := λ d f, d +:+ "/" +:+ f;
     render_template := λ name arguments,
       "#!/usr/bin/env bash" +:+ String.concat " " (snd <$> arguments);
     create_mode := 33188;
     repr := λ p, "'" +:+ p +:+ "'" |}.


(** A disk that already holds an activation script, not executable. *)
Definition old_script : file := {| content := "old"; st_mode := 33188 |}.

Definition used_disk : disk :=
  {| files := {[ "/home/user/legion-activate.sh" := old_script ]}; stdout := [] |}.

Definition sandbox_plain : sandbox_args.t :=
  {| sandbox_args.image := "legion/toolchain";
     sandbox_args.force_recreate := false |}.

Definition sandbox_forced : sandbox_args.t :=
  {| sandbox_args.image := "legion/toolchain";
     sandbox_args.force_recreate := true |}.

(** ** [build_model]: the docker image of a model *)

(** The fields of [argparse.Namespace] that [build_model] reads; an option
    that was not given is [None]. *)
Module build_args.
Record t : Type := {
  model_file : option string;
  docker_image_tag : option string;
  push_to_registry : option string
}.
End build_args.

(** [docker.models.images.Image], as far as [build_model] reads it. *)
Module Image.
Record t : Type := {
  id : string;
  tags : list string
}.
End Image.

(** Python truthiness of a value that is a string or [None]. *)
Definition given (v : option string) : bool :=
  match v with
  | Some s => non_empty s
  | None => false
  end.

(** The calls [build_model] makes that act on the outside, in order. *)
Inductive build_event : Type :=
  | DockerClient
  | ReaderEnter (model_file : string)
  | ReaderExit (model_file : string)
  | ModelLoad (path : string)
  | DockerBuild (model_id path labels tag : string)
  | Header (name value : string)
  | DockerPush (image : Image.t) (registry : string).

(** What [build_model] calls and reads outside of cli.py; [inl] (or [Some]
    for a call without a result) is a raised error.  [reader_path] is the
    [path] of [ExternalFileReader(model_file)] once entered; leaving the
    [with] block does not suppress an exception. *)
Record toolchain : Type := {
  build_docker_client : option string;
  getenv_MODEL_FILE : option string;
  reader_path : string → string + string;
  binary_exists : string → bool;
  model_load : string → string + (string * string);
  generate_docker_labels_for_image : string → string → build_args.t → string + string;
  deduce_extra_version : string + string;
  build_docker_image : string → string → string → string → string + Image.t;
  push_image_to_registry : Image.t → string → option string;
  IMAGE_ID_LOCAL : string;
  IMAGE_TAG_LOCAL : string
}.

(** Results of [build_model]: a value, an exception of cli.py with its
    message, or the error of a call outside. *)
Inductive built (A : Type) : Type :=
  | Built (a : A)
  | Failed (msg : string)
  | Broke (detail : string).
Arguments Built {A} a.
Arguments Failed {A} msg.
Arguments Broke {A} detail.

Definition B (A : Type) : Type := list build_event → built A * list build_event.

Definition retB {A} (a : A) : B A := λ tr, (Built a, tr).

Definition bindB {A C} (m : B A) (k : A → B C) : B C :=
  λ tr, match m tr with
        | (Built a, tr') => k a tr'
        | (Failed msg, tr') => (Failed msg, tr')
        | (Broke e, tr') => (Broke e, tr')
        end.

Definition failB {A} (msg : string) : B A := λ tr, (Failed msg, tr).

(** A call outside: it is recorded, then it answers or raises. *)
Definition callB {A} (e : build_event) (answer : string + A) : B A :=
  λ tr, match answer with
        | inl err => (Broke err, tr ++ [e])
        | inr a => (Built a, tr ++ [e])
        end.

(** A computation outside that leaves no record. *)
Definition askB {A} (answer : string + A) : B A :=
  λ tr, match answer with
        | inl err => (Broke err, tr)
        | inr a => (Built a, tr)
        end.

Definition unit_answer (err : option string) : string + unit :=
  match err with
  | Some e => inl e
  | None => inr tt
  end.

(** [with ExternalFileReader(model_file) as external_reader: body]: the
    reader is left when the body returns and when it raises. *)
Definition with_reader {A} (tc : toolchain) (model_file : string)
    (body : string → B A) : B A :=
  λ tr, match callB (ReaderEnter model_file) (reader_path tc model_file) tr with
        | (Built path, tr') =>
            let (r, tr'') := body path tr' in (r, tr'' ++ [ReaderExit model_file])
        | (Failed msg, tr') => (Failed msg, tr')
        | (Broke e, tr') => (Broke e, tr')
        end.

Notation "x <~ c ;; k" := (bindB c (λ x, k))
  (at level 100, c at next level, right associativity).

(** The body of the [with] block of [build_model], lines 64-97, for the
    [path] of the reader. *)
Definition build_from (tc : toolchain) (a : build_args.t) (path : string)
    : B Image.t :=
  if negb (binary_exists tc path)
  then failB ("Cannot find model binary " +:+ path)
  else
    container <~ callB (ModelLoad path) (model_load tc path) ;;
    let model_id := fst container in
    let model_version := snd container in
    image_labels <~ askB (generate_docker_labels_for_image tc path model_id a) ;;
    new_image_tag <~
      (if given (build_args.docker_image_tag a)
       then retB (default "" (build_args.docker_image_tag a))
       else
         extra <~ askB (deduce_extra_version tc) ;;
         retB ("legion-model-" +:+ model_id +:+ ":" +:+ model_version
               +:+ "." +:+ extra)) ;;
    image <~ callB (DockerBuild model_id path image_labels new_image_tag)
               (build_docker_image tc model_id path image_labels new_image_tag) ;;
    _ <~ callB (Header (IMAGE_ID_LOCAL tc) (Image.id image)) (inr tt) ;;
    _ <~ (match Image.tags image with
          | tag :: _ => callB (Header (IMAGE_TAG_LOCAL tc) tag) (inr tt)
          | [] => retB tt
          end) ;;
    _ <~ (if given (build_args.push_to_registry a)
          then callB (DockerPush image (default "" (build_args.push_to_registry a)))
                 (unit_answer
                    (push_image_to_registry tc image
                       (default "" (build_args.push_to_registry a))))
          else retB tt) ;;
    retB image.

(** [build_model], lines 46-97. *)
Definition build_model (tc : toolchain) (a : build_args.t) : B Image.t :=
  client <~ callB DockerClient (unit_answer (build_docker_client tc)) ;;
  let model_file := build_args.model_file a in
  let model_file := if given model_file then model_file else getenv_MODEL_FILE tc in
  if negb (given model_file) then failB "Model file has not been provided"
  else with_reader tc (default "" model_file) (build_from tc a).

(** A toolchain in which every call answers. *)
Definition built_image : Image.t :=
  {| Image.id := "sha256:0a1b"; Image.tags := ["legion-model-demo:1.0.2"] |}.

Definition workshop : toolchain :=
  {| build_docker_client := None;
     getenv_MODEL_FILE := Some "/models/env.bin";
     reader_path := λ f, inr f;
     binary_exists := λ p, negb (String.eqb p "/models/none.bin");
     model_load := λ _, inr ("demo", "1.0");
     generate_docker_labels_for_image := λ _ _ _, inr "labels";
     deduce_extra_version := inr "2";
     build_docker_image := λ _ _ _ _, inr built_image;
     push_image_to_registry := λ _ _, None;
     IMAGE_ID_LOCAL := "X-Legion-Image-Id";
     IMAGE_TAG_LOCAL := "X-Legion-Image-Tag" |}.

(** The same toolchain on a full disk: the build of the image raises. *)
Definition full_disk : toolchain :=
  {| build_docker_client := None; getenv_MODEL_FILE := None;
     reader_path := reader_path workshop; binary_exists := binary_exists workshop;
     model_load := model_load workshop;
     generate_docker_labels_for_image := generate_docker_labels_for_image workshop;
     deduce_extra_version := deduce_extra_version workshop;
     build_docker_image := λ _ _ _ _, inl "no space left on device";
     push_image_to_registry := push_image_to_registry workshop;
     IMAGE_ID_LOCAL := IMAGE_ID_LOCAL workshop;
     IMAGE_TAG_LOCAL := IMAGE_TAG_LOCAL workshop |}.

Definition demo_build : build_args.t :=
  {| build_args.model_file := Some "/models/demo.bin";
     build_args.docker_image_tag := Some "demo:latest";
     build_args.push_to_registry := Some "registry:5000" |}.

(** The two operations that wait with [check_all_scaled], each with the
    request it sends. *)
Definition scaling_operations (srv : remote) (a : args.t)
    : list (request * (nat → M unit)) :=
  [(Scale (args.model_id a) (args.scale a) (args.model_version a),
    λ fuel, scale_kubernetes srv fuel a);
   (Deploy (args.image a) (args.model_iam_role a) (args.scale a)
      (args.livenesstimeout a) (args.readinesstimeout a),
    λ fuel, deploy_kubernetes srv fuel a)].

(** The request returns the same deployment twice; the first status query
    lists it once at the requested scale, the later ones list two such
    descriptors. *)
Definition twice_affected : list ModelDeploymentDescription :=
  [deployment "a" 0 None; deployment "a" 0 None].

Definition srv_twice : remote :=
  {| clock := seconds; minus := Qminus;
     inspect_reply := λ n,
       match n with
       | O => inr [deployment "a" 3 (Some true)]
       | S _ => inr [deployment "a" 3 (Some true); deployment "a" 3 (Some true)]
       end;
     dispatch_reply := λ _, inr twice_affected |}.

(** ** Properties of the pure parts *)

Lemma related_deployments_nil (actual : list ModelDeploymentDescription) :
  related_deployments (affected_deployment_ids []) actual = [].
Proof.
  unfold related_deployments, affected_deployment_ids. simpl.
  induction actual as [|d actual IH]; [reflexivity|].
  rewrite filter_cons_False; [exact IH|]. set_solver.
Qed.

Lemma finally_deployed_qualifying
    (deployments_status : list ModelDeploymentDescription) expected_scale :
  filter (λ deployment,
            Is_true ((ready_replicas deployment =? expected_scale)
                     && truthy (model_api_ok deployment)))
         deployments_status
  = filter (qualifying expected_scale) deployments_status.
Proof.
  apply list_filter_iff. intros d. unfold qualifying.
  rewrite andb_True, Is_true_true, Z.eqb_eq.
  destruct (model_api_ok d) as [[|]|]; simpl; split; intros [H1 H2];
    split; auto; try discriminate; try contradiction.
Qed.

Lemma exceeds_true elapsed timeout :
  exceeds elapsed timeout = true ↔ (inject_Z timeout < elapsed)%Q.
Proof.
  unfold exceeds. rewrite negb_true_iff. split.
  - intros H. apply Qnot_le_lt. intros Hle.
    apply Qle_bool_iff in Hle. congruence.
  - intros H. destruct (Qle_bool elapsed (inject_Z timeout)) eqn:E; [|reflexivity].
    apply Qle_bool_iff in E. exfalso. exact (Qlt_not_le _ _ H E).
Qed.

Lemma exceeds_false elapsed timeout :
  exceeds elapsed timeout = false ↔ (elapsed <= inject_Z timeout)%Q.
Proof.
  unfold exceeds. rewrite negb_false_iff. apply Qle_bool_iff.
Qed.

(** ** The store *)

Lemma contents_lookup h r l : h !! r = Some l → contents h r = l.
Proof. unfold contents. intros ->. reflexivity. Qed.

Lemma contents_new h l : contents (h ++ [l]) (length h) = l.
Proof.
  unfold contents. rewrite lookup_app_r by lia.
  rewrite Nat.sub_diag. reflexivity.
Qed.

Lemma lookup_grown (h ext : list (list ModelDeploymentDescription)) r l :
  h !! r = Some l → (h ++ ext) !! r = Some l.
Proof. intros H. apply lookup_app_l_Some. exact H. Qed.

(** ** One step of each effectful function *)

Section Steps.
Variable srv : remote.

Lemma get_related_answered md st snapshot :
  inspect_reply srv (polls st) = inr snapshot →
  get_related_model_deployments srv md st
  = (Returned (S (length (heap st))),
     polled (affected_deployment_ids (contents (heap st) md)) snapshot st).
Proof.
  intros H. unfold get_related_model_deployments, bind, deref, inspect.
  rewrite H. unfold alloc, log, polled, poll_cells. simpl.
  rewrite contents_new, length_app, <- app_assoc. simpl.
  repeat f_equal. lia.
Qed.

Lemma get_related_unanswered md st e :
  inspect_reply srv (polls st) = inl e →
  get_related_model_deployments srv md st
  = (Raised (ClientError e), unanswered st).
Proof.
  intros H. unfold get_related_model_deployments, bind, deref, inspect.
  rewrite H. reflexivity.
Qed.

Variable a : args.t.
Variable md : loc.
Variable cb : callback.
Variable start : Q.

Lemma wait_loop_deadline n st :
  (inject_Z (args.timeout a) < minus srv (clock srv (ticks st)) start)%Q →
  wait_loop srv (S n) a md cb start st = (Raised time_out, ticked srv st).
Proof.
  intros H. apply exceeds_true in H. simpl. unfold bind at 1. simpl.
  unfold log. simpl. fold (ticked srv st). rewrite H. reflexivity.
Qed.

Lemma wait_loop_unanswered n st e :
  (minus srv (clock srv (ticks st)) start <= inject_Z (args.timeout a))%Q →
  inspect_reply srv (polls st) = inl e →
  wait_loop srv (S n) a md cb start st
  = (Raised (ClientError e), unanswered (ticked srv st)).
Proof.
  intros H Hq. apply exceeds_false in H. simpl. unfold bind at 1. simpl.
  unfold log. simpl. fold (ticked srv st). rewrite H.
  unfold bind at 1. rewrite (get_related_unanswered md (ticked srv st) e Hq).
  reflexivity.
Qed.

Lemma wait_loop_answered n st snapshot :
  (minus srv (clock srv (ticks st)) start <= inject_Z (args.timeout a))%Q →
  inspect_reply srv (polls st) = inr snapshot →
  let st' := polled (affected_deployment_ids (contents (heap st) md))
               snapshot (ticked srv st) in
  wait_loop srv (S n) a md cb start st
  = if truthy (cb (heap st') (S (length (heap st))))
    then (Returned tt, st')
    else wait_loop srv n a md cb start (log (EvSleep 1) st').
Proof.
  intros H Hq st'. apply exceeds_false in H. simpl. unfold bind at 1. simpl.
  unfold log at 1. simpl. fold (ticked srv st). rewrite H.
  unfold bind at 1.
  rewrite (get_related_answered md (ticked srv st) snapshot Hq).
  unfold bind at 1, call. subst st'. simpl.
  destruct (truthy _); reflexivity.
Qed.

End Steps.

(** ** Iterations that do not end the loop *)

Lemma next_trace srv ids snapshot st :
  trace (next srv ids snapshot st) = trace st ++ round srv (ticks st).
Proof.
  unfold next, log, polled, ticked, round. simpl.
  rewrite <- !app_assoc. reflexivity.
Qed.

Lemma contents_polled h ids snapshot :
  contents (h ++ poll_cells ids snapshot) (S (length h))
  = related_deployments ids snapshot.
Proof.
  unfold poll_cells.
  change (h ++ [snapshot; related_deployments ids snapshot])
    with (h ++ [snapshot] ++ [related_deployments ids snapshot]).
  rewrite app_assoc.
  replace (S (length h)) with (length (h ++ [snapshot]))
    by (rewrite length_app; simpl; lia).
  apply contents_new.
Qed.

Section Rounds.
Variable srv : remote.
Variable a : args.t.
Variable md : loc.
Variable cb : callback.
Variable start : Q.
Variable affected : list ModelDeploymentDescription.

Let ids := affected_deployment_ids affected.

(** One pending poll: the loop continues from [next]. *)
Lemma wait_loop_next n st :
  heap st !! md = Some affected →
  pending_poll srv a md cb affected start (ticks st) (polls st) →
  ∃ snapshot,
    inspect_reply srv (polls st) = inr snapshot ∧
    wait_loop srv (S n) a md cb start st
    = wait_loop srv n a md cb start (next srv ids snapshot st).
Proof.
  intros Hmd (Ht & snapshot & Hq & Hcb). exists snapshot. split; [exact Hq|].
  rewrite (wait_loop_answered srv a md cb start n st snapshot Ht Hq).
  cbv zeta. rewrite (contents_lookup _ _ _ Hmd). fold ids.
  rewrite Hcb; [reflexivity| |].
  - simpl. apply contents_polled.
  - simpl. apply contents_lookup, lookup_grown, Hmd.
Qed.

(** [k] pending polls in a row. *)
Lemma wait_loop_pending k : ∀ st fuel,
  heap st !! md = Some affected →
  (∀ i, (i < k)%nat →
     pending_poll srv a md cb affected start (ticks st + i) (polls st + i)) →
  ∃ st_k snaps,
    wait_loop srv (k + fuel) a md cb start st
    = wait_loop srv fuel a md cb start st_k ∧
    ticks st_k = (ticks st + k)%nat ∧
    polls st_k = (polls st + k)%nat ∧
    trace st_k = trace st ++ rounds srv (ticks st) k ∧
    heap st_k = heap st ++ flat_map (poll_cells ids) snaps ∧
    length snaps = k ∧
    ∀ i snapshot, snaps !! i = Some snapshot →
                  inspect_reply srv (polls st + i) = inr snapshot.
Proof.
  induction k as [|k IH]; intros st fuel Hmd Hpend.
  - exists st, []. simpl. rewrite !Nat.add_0_r, !app_nil_r.
    repeat split; auto. intros i snapshot H. discriminate.
  - destruct (wait_loop_next (k + fuel) st Hmd) as (snapshot & Hq & Hstep).
    { specialize (Hpend O). rewrite !Nat.add_0_r in Hpend. apply Hpend. lia. }
    set (st1 := next srv ids snapshot st) in *.
    destruct (IH st1 fuel) as (st_k & snaps & Hrun & Ht & Hp & Htr & Hh & Hlen & Hsn).
    { simpl. apply lookup_grown, Hmd. }
    { intros i Hi. generalize (Hpend (S i) ltac:(lia)).
      rewrite !Nat.add_succ_r. simpl. auto. }
    exists st_k, (snapshot :: snaps).
    change (S k + fuel)%nat with (S (k + fuel)).
    rewrite Hstep, Hrun. repeat split.
    + rewrite Ht. simpl. lia.
    + rewrite Hp. simpl. lia.
    + rewrite Htr. unfold st1. rewrite next_trace.
      unfold rounds. simpl. rewrite <- !app_assoc. reflexivity.
    + rewrite Hh. simpl. rewrite <- app_assoc. reflexivity.
    + simpl. lia.
    + intros [|i] snapshot' H; simpl in H.
      * injection H as <-. rewrite Nat.add_0_r. exact Hq.
      * apply Hsn in H. simpl in H.
        replace (polls st + S i)%nat with (S (polls st + i)) by lia.
        exact H.
Qed.

End Rounds.

(** ** Counting events *)

Lemma count_app p tr1 tr2 :
  count p (tr1 ++ tr2) = (count p tr1 + count p tr2)%nat.
Proof. unfold count. rewrite filter_app, length_app. reflexivity. Qed.

Lemma count_rounds_inspect srv t k : count is_inspect (rounds srv t k) = k.
Proof.
  unfold rounds. revert t. induction k as [|k IH]; intros t; [reflexivity|].
  change (flat_map (round srv) (seq t (S k)))
    with (round srv t ++ flat_map (round srv) (seq (S t) k)).
  rewrite count_app, IH. reflexivity.
Qed.

Lemma count_rounds_sleep srv t k : count is_sleep (rounds srv t k) = k.
Proof.
  unfold rounds. revert t. induction k as [|k IH]; intros t; [reflexivity|].
  change (flat_map (round srv) (seq t (S k)))
    with (round srv t ++ flat_map (round srv) (seq (S t) k)).
  rewrite count_app, IH. reflexivity.
Qed.

(** ** The filter of affected deployments *)

Lemma related_deployments_identity_in affected
    (actual : list ModelDeploymentDescription) :
  related_deployments (affected_deployment_ids affected) actual
  = filter (identity_in affected) actual.
Proof.
  unfold related_deployments. apply list_filter_iff. intros d.
  unfold identity_in, affected_deployment_ids. apply elem_of_list_to_set.
Qed.

(** C1. When the list at [md] is [A] and the status query answers [Sn],
    [get_related_model_deployments] returns a new list that holds exactly the
    descriptors of [Sn] whose [id_and_version] is the [id_and_version] of some
    element of [A], in the order and number they have in [Sn]; the list [A],
    the answer [Sn] and every other list of the store are left as they
    were. *)
Theorem get_related_model_deployments_exact srv md st A Sn :
  heap st !! md = Some A →
  inspect_reply srv (polls st) = inr Sn →
  ∃ actual result st',
    get_related_model_deployments srv md st = (Returned result, st') ∧
    contents (heap st') result = filter (identity_in A) Sn ∧
    (∀ d, d ∈ contents (heap st') result ↔
          d ∈ Sn ∧ ∃ x, x ∈ A ∧ id_and_version x = id_and_version d) ∧
    heap st' !! md = Some A ∧
    heap st !! actual = None ∧ heap st' !! actual = Some Sn ∧
    (∀ r l, heap st !! r = Some l → heap st' !! r = Some l) ∧
    polls st' = S (polls st) ∧
    trace st' = trace st ++ [EvInspect].
Proof.
  intros Hmd Hq.
  exists (length (heap st)), (S (length (heap st))),
    (polled (affected_deployment_ids A) Sn st).
  assert (Hres : contents (heap (polled (affected_deployment_ids A) Sn st))
                   (S (length (heap st)))
                 = filter (identity_in A) Sn).
  { simpl. rewrite contents_polled. apply related_deployments_identity_in. }
  split.
  { rewrite (get_related_answered srv md st Sn Hq).
    rewrite (contents_lookup _ _ _ Hmd). reflexivity. }
  split; [exact Hres|].
  split.
  { intros d. rewrite Hres, list_elem_of_filter. unfold identity_in.
    rewrite list_elem_of_fmap. split.
    - intros [(x & Hx & Hin) Hd]. split; [exact Hd|].
      exists x. split; [exact Hin|symmetry; exact Hx].
    - intros [Hd (x & Hin & Hx)]. split; [|exact Hd].
      exists x. split; [symmetry; exact Hx|exact Hin]. }
  split; [simpl; apply lookup_grown, Hmd|].
  split; [apply lookup_ge_None; lia|].
  split.
  { simpl. unfold poll_cells. rewrite lookup_app_r by lia.
    rewrite Nat.sub_diag. reflexivity. }
  split; [intros r l H; simpl; apply lookup_grown, H|].
  split; reflexivity.
Qed.

Lemma get_related_model_deployments_exact_witness :
  ∃ actual result st',
    get_related_model_deployments srv_stuck O dispatched = (Returned result, st') ∧
    contents (heap st') result = filter (identity_in two_affected) three_listed ∧
    (∀ d, d ∈ contents (heap st') result ↔
          d ∈ three_listed ∧
          ∃ x, x ∈ two_affected ∧ id_and_version x = id_and_version d) ∧
    heap st' !! O = Some two_affected ∧
    heap dispatched !! actual = None ∧ heap st' !! actual = Some three_listed ∧
    (∀ r l, heap dispatched !! r = Some l → heap st' !! r = Some l) ∧
    polls st' = S (polls dispatched) ∧
    trace st' = trace dispatched ++ [EvInspect].
Proof.
  apply (get_related_model_deployments_exact srv_stuck O dispatched
           two_affected three_listed); reflexivity.
Defined.

(** ** The completion predicates *)

(** C2. [check_all_scaled D N K] is true exactly when the number of
    descriptors of [D] whose ready-replica count is [N] and whose
    [model_api_ok] is true equals [K]; a descriptor whose [model_api_ok] is false
    or [None] does not change the answer, whatever its replica count. *)
Theorem check_all_scaled_iff (D : list ModelDeploymentDescription) (N K : Z) :
  (check_all_scaled D N K = true ↔
   Z.of_nat (length (filter (qualifying N) D)) = K) ∧
  (∀ d, model_api_ok d ≠ Some true →
        check_all_scaled (d :: D) N K = check_all_scaled D N K) ∧
  (∀ d, qualifying N d →
        check_all_scaled (d :: D) N K = check_all_scaled D N (K - 1)).
Proof.
  unfold check_all_scaled. rewrite !finally_deployed_qualifying.
  split; [apply Z.eqb_eq|]. split; intros d Hd.
  - rewrite finally_deployed_qualifying, filter_cons_False; [reflexivity|].
    unfold qualifying. tauto.
  - rewrite finally_deployed_qualifying, filter_cons_True by exact Hd.
    simpl length. rewrite Nat2Z.inj_succ.
    destruct (Z.eqb_spec (Z.succ (Z.of_nat (length (filter (qualifying N) D)))) K);
      destruct (Z.eqb_spec (Z.of_nat (length (filter (qualifying N) D))) (K - 1));
      auto; lia.
Qed.

Lemma check_all_scaled_iff_witness :
  check_all_scaled three_listed 3 1 = true ∧
  check_all_scaled three_listed 3 3 = false.
Proof.
  split.
  - apply (proj1 (check_all_scaled_iff three_listed 3 1)). reflexivity.
  - destruct (check_all_scaled three_listed 3 3) eqn:E; [|reflexivity].
    apply (proj1 (check_all_scaled_iff three_listed 3 3)) in E. discriminate E.
Defined.

(** C6. The callback of [undeploy_kubernetes] is truthy exactly when the
    list it is given is empty; on a list with at least one descriptor it is
    falsy, whatever the descriptors are.  In the loop it is given the filtered
    answer of the status query: an iteration whose query answers returns when
    no listed descriptor has the identity of an affected deployment, and goes
    on to sleep otherwise. *)
Theorem undeploy_callback_iff h (affected_deployments_status : loc) :
  (truthy (undeploy_callback h affected_deployments_status) = true ↔
   contents h affected_deployments_status = []) ∧
  (∀ d l, contents h affected_deployments_status = d :: l →
          truthy (undeploy_callback h affected_deployments_status) = false) ∧
  (∀ srv a md start n st A Sn,
     heap st !! md = Some A →
     (minus srv (clock srv (ticks st)) start <= inject_Z (args.timeout a))%Q →
     inspect_reply srv (polls st) = inr Sn →
     (related_deployments (affected_deployment_ids A) Sn = [] →
      wait_loop srv (S n) a md undeploy_callback start st
      = (Returned tt, polled (affected_deployment_ids A) Sn (ticked srv st))) ∧
     (related_deployments (affected_deployment_ids A) Sn ≠ [] →
      wait_loop srv (S n) a md undeploy_callback start st
      = wait_loop srv n a md undeploy_callback start
          (next srv (affected_deployment_ids A) Sn st))).
Proof.
  split; [|split].
  - unfold undeploy_callback.
    destruct (contents h affected_deployments_status); simpl;
      split; (discriminate || reflexivity).
  - intros d l H. unfold undeploy_callback. rewrite H. reflexivity.
  - intros srv a md start n st A Sn Hmd Ht Hq.
    rewrite (wait_loop_answered srv a md undeploy_callback start n st Sn Ht Hq).
    cbv zeta. rewrite (contents_lookup _ _ _ Hmd).
    unfold undeploy_callback at 1 3. simpl heap. rewrite contents_polled.
    split; intros H.
    + rewrite H. reflexivity.
    + destruct (related_deployments (affected_deployment_ids A) Sn);
        [contradiction|reflexivity].
Qed.

Lemma undeploy_callback_iff_witness :
  truthy (undeploy_callback [two_affected; []] 1%nat) = true ∧
  truthy (undeploy_callback [two_affected; []] O) = false.
Proof.
  split.
  - apply (proj1 (undeploy_callback_iff [two_affected; []] 1%nat)). reflexivity.
  - apply (proj1 (proj2 (undeploy_callback_iff [two_affected; []] O))
             (deployment "a" 1 (Some true)) [deployment "b" 1 (Some true)]).
    reflexivity.
Defined.

(** ** Entering the wait loop *)

(** C3. With [no_wait] unset and a timeout that is zero or negative,
    [wait_operation_finish] raises the invalid-timeout exception after it has
    read the clock once: no status query and no request is made, the store is
    not touched. *)
Theorem invalid_timeout_raised_first srv fuel a md cb st :
  args.no_wait a = false →
  args.timeout a <= 0 →
  ∃ st',
    wait_operation_finish srv fuel a md cb st = (Raised invalid_timeout, st') ∧
    trace st' = trace st ++ [EvTime (clock srv (ticks st))] ∧
    count is_network (trace st') = count is_network (trace st) ∧
    polls st' = polls st ∧
    heap st' = heap st.
Proof.
  intros Hnw Hto. exists (ticked srv st).
  unfold wait_operation_finish. rewrite Hnw. simpl.
  unfold bind, time_time. simpl. unfold log. simpl. fold (ticked srv st).
  apply Z.leb_le in Hto. rewrite Hto.
  split; [reflexivity|]. split; [reflexivity|].
  split; [|split; reflexivity].
  unfold count. simpl. rewrite filter_app, length_app. simpl. lia.
Qed.

Lemma invalid_timeout_raised_first_witness :
  ∃ st',
    wait_operation_finish srv_stuck 7 (cli_args false 0 3) O undeploy_callback
      dispatched = (Raised invalid_timeout, st') ∧
    trace st' = trace dispatched ++ [EvTime (clock srv_stuck (ticks dispatched))] ∧
    count is_network (trace st') = count is_network (trace dispatched) ∧
    polls st' = polls dispatched ∧
    heap st' = heap dispatched.
Proof.
  apply (invalid_timeout_raised_first srv_stuck 7 (cli_args false 0 3) O
           undeploy_callback dispatched).
  - reflexivity.
  - simpl. lia.
Defined.

(** C7, as the code has it.  With [no_wait] set, [wait_operation_finish]
    returns at once and leaves the state as it was: no clock reading, no
    status query, no call of the callback, no sleep, and no check of the
    timeout, whatever its value. *)
Theorem no_wait_returns_at_once srv fuel a md cb st :
  args.no_wait a = true →
  wait_operation_finish srv fuel a md cb st = (Returned tt, st).
Proof.
  intros Hnw. unfold wait_operation_finish. rewrite Hnw. reflexivity.
Qed.

Lemma no_wait_returns_at_once_witness :
  wait_operation_finish srv_stuck 7 (cli_args true 0 3) O undeploy_callback
    dispatched = (Returned tt, dispatched).
Proof.
  apply (no_wait_returns_at_once srv_stuck 7 (cli_args true 0 3) O
           undeploy_callback dispatched).
  reflexivity.
Defined.

(** C7, as stated, fails: with [no_wait] set and a positive timeout, against a
    service whose status query would answer, the wait returns after zero
    status queries, not one. *)
Lemma no_wait_makes_no_status_query :
  args.no_wait (cli_args true 5 3) = true ∧
  fst (wait_operation_finish srv_stuck 7 (cli_args true 5 3) O undeploy_callback
         dispatched) = Returned tt ∧
  count is_inspect
    (trace (snd (wait_operation_finish srv_stuck 7 (cli_args true 5 3) O
                   undeploy_callback dispatched))) = O ∧
  polls (snd (wait_operation_finish srv_stuck 7 (cli_args true 5 3) O
                undeploy_callback dispatched)) ≠ 1%nat.
Proof.
  split; [reflexivity|]. split; [reflexivity|]. split; [reflexivity|].
  simpl. discriminate.
Qed.

(** ** A request that fails *)

(** C8. When the request of [undeploy_kubernetes], [scale_kubernetes] or
    [deploy_kubernetes] raises, the operation raises the same error; the only
    effect is the request: the clock is not read, no status query is made and
    nothing is added to the store. *)
Theorem dispatch_failure_surfaces srv fuel a st e :
  (dispatch_reply srv (Undeploy (args.model_id a) (args.grace_period a)
                         (args.model_version a) (args.ignore_not_found a))
   = inl e →
   undeploy_kubernetes srv fuel a st
   = (Raised (ClientError e),
      log (EvRequest (Undeploy (args.model_id a) (args.grace_period a)
                        (args.model_version a) (args.ignore_not_found a))) st)) ∧
  (dispatch_reply srv (Scale (args.model_id a) (args.scale a) (args.model_version a))
   = inl e →
   scale_kubernetes srv fuel a st
   = (Raised (ClientError e),
      log (EvRequest (Scale (args.model_id a) (args.scale a)
                        (args.model_version a))) st)) ∧
  (dispatch_reply srv (Deploy (args.image a) (args.model_iam_role a) (args.scale a)
                         (args.livenesstimeout a) (args.readinesstimeout a))
   = inl e →
   deploy_kubernetes srv fuel a st
   = (Raised (ClientError e),
      log (EvRequest (Deploy (args.image a) (args.model_iam_role a) (args.scale a)
                        (args.livenesstimeout a) (args.readinesstimeout a))) st)) ∧
  (∀ r, count is_inspect (trace (log (EvRequest r) st))
        = count is_inspect (trace st) ∧
        polls (log (EvRequest r) st) = polls st ∧
        ticks (log (EvRequest r) st) = ticks st ∧
        heap (log (EvRequest r) st) = heap st).
Proof.
  unfold undeploy_kubernetes, scale_kubernetes, deploy_kubernetes, bind, dispatch.
  split; [intros ->; reflexivity|].
  split; [intros ->; reflexivity|].
  split; [intros ->; reflexivity|].
  intros r. simpl. unfold count. rewrite filter_app, length_app. simpl.
  split; [lia|]. auto.
Qed.

Lemma dispatch_failure_surfaces_witness :
  undeploy_kubernetes srv_rejects 7 (cli_args false 5 3) init
  = (Raised (ClientError "403 Forbidden"),
     {| heap := []; ticks := O; polls := O;
        trace := [EvRequest (Undeploy "m" 0 None false)] |}) ∧
  scale_kubernetes srv_rejects 7 (cli_args false 5 3) init
  = (Raised (ClientError "403 Forbidden"),
     {| heap := []; ticks := O; polls := O;
        trace := [EvRequest (Scale "m" 3 None)] |}) ∧
  deploy_kubernetes srv_rejects 7 (cli_args false 5 3) init
  = (Raised (ClientError "403 Forbidden"),
     {| heap := []; ticks := O; polls := O;
        trace := [EvRequest (Deploy "legion/model" None 3 2 2)] |}).
Proof.
  pose proof (dispatch_failure_surfaces srv_rejects 7 (cli_args false 5 3) init
                "403 Forbidden") as (Hu & Hs & Hd & _).
  split; [apply Hu; reflexivity|].
  split; [apply Hs; reflexivity|apply Hd; reflexivity].
Defined.

(** ** Confirmation *)

(** C5. When [k] iterations in a row have not ended the loop and the callback
    is truthy on the filtered answer of the next status query, the loop
    returns in that iteration: the last effect is that status query, so
    [k + 1] status queries and [k] sleeps have been made in all, none of them
    after the truthy evaluation. *)
Theorem first_truthy_poll_returns srv a md cb start A k fuel st Sn :
  heap st !! md = Some A →
  (∀ i, (i < k)%nat →
     pending_poll srv a md cb A start (ticks st + i) (polls st + i)) →
  (minus srv (clock srv (ticks st + k)) start <= inject_Z (args.timeout a))%Q →
  inspect_reply srv (polls st + k) = inr Sn →
  (∀ h r, contents h r = related_deployments (affected_deployment_ids A) Sn →
          contents h md = A → truthy (cb h r) = true) →
  ∃ st',
    wait_loop srv (k + S fuel) a md cb start st = (Returned tt, st') ∧
    trace st' = trace st ++ rounds srv (ticks st) k
                  ++ [EvTime (clock srv (ticks st + k)); EvInspect] ∧
    polls st' = (polls st + k + 1)%nat ∧
    count is_inspect (trace st') = (count is_inspect (trace st) + k + 1)%nat ∧
    count is_sleep (trace st') = (count is_sleep (trace st) + k)%nat.
Proof.
  intros Hmd Hpend Ht Hq Hcb.
  destruct (wait_loop_pending srv a md cb start A k st (S fuel) Hmd Hpend)
    as (st_k & snaps & Hrun & Htk & Hpk & Htr & Hh & _ & _).
  assert (Hmdk : heap st_k !! md = Some A) by (rewrite Hh; apply lookup_grown, Hmd).
  rewrite <- Htk in Ht. rewrite <- Hpk in Hq.
  pose proof (wait_loop_answered srv a md cb start fuel st_k Sn Ht Hq) as Hstep.
  cbv zeta in Hstep. rewrite (contents_lookup _ _ _ Hmdk) in Hstep.
  rewrite Hcb in Hstep.
  - eexists. split; [rewrite Hrun; exact Hstep|].
    assert (Htrace : trace (polled (affected_deployment_ids A) Sn (ticked srv st_k))
                     = trace st ++ rounds srv (ticks st) k
                         ++ [EvTime (clock srv (ticks st + k)); EvInspect]).
    { simpl. rewrite Htr, Htk, <- !app_assoc. reflexivity. }
    split; [exact Htrace|]. split; [simpl; lia|].
    rewrite Htrace, !count_app, count_rounds_inspect, count_rounds_sleep.
    split; unfold count; simpl; lia.
  - simpl. apply contents_polled.
  - simpl. apply contents_lookup, lookup_grown, Hmdk.
Qed.

Lemma first_truthy_poll_returns_witness :
  ∃ st',
    wait_loop srv_gone (1 + 4) (cli_args false 5 3) O undeploy_callback
      (seconds 0) dispatched = (Returned tt, st') ∧
    trace st' = trace dispatched ++ rounds srv_gone (ticks dispatched) 1
                  ++ [EvTime (clock srv_gone (ticks dispatched + 1)); EvInspect] ∧
    polls st' = (polls dispatched + 1 + 1)%nat ∧
    count is_inspect (trace st')
    = (count is_inspect (trace dispatched) + 1 + 1)%nat ∧
    count is_sleep (trace st') = (count is_sleep (trace dispatched) + 1)%nat.
Proof.
  apply (first_truthy_poll_returns srv_gone (cli_args false 5 3) O
           undeploy_callback (seconds 0) two_affected 1 3 dispatched
           [deployment "c" 3 None]).
  - reflexivity.
  - intros i Hi. assert (i = O) as -> by lia. split.
    + apply Qle_bool_iff. reflexivity.
    + exists three_listed. split; [reflexivity|].
      intros h r H _. unfold undeploy_callback. rewrite H. reflexivity.
  - apply Qle_bool_iff. reflexivity.
  - reflexivity.
  - intros h r H _. unfold undeploy_callback. rewrite H. reflexivity.
Defined.

(** ** The deadline *)

Lemma wait_operation_finish_enters srv fuel a md cb st :
  args.no_wait a = false →
  0 < args.timeout a →
  wait_operation_finish srv fuel a md cb st
  = wait_loop srv fuel a md cb (clock srv (ticks st)) (ticked srv st).
Proof.
  intros Hnw Hto. unfold wait_operation_finish. rewrite Hnw. simpl.
  unfold bind, time_time. simpl. unfold log. simpl. fold (ticked srv st).
  apply Z.leb_gt in Hto. rewrite Hto. reflexivity.
Qed.

(** Once a clock reading is past the deadline the loop has ended, one way or
    another, by the iteration that makes that reading. *)
Lemma wait_loop_terminates srv a md cb start n : ∀ st fuel,
  (inject_Z (args.timeout a) < minus srv (clock srv (ticks st + n)) start)%Q →
  (n < fuel)%nat →
  ∃ o st',
    wait_loop srv fuel a md cb start st = (o, st') ∧
    (o = Returned tt ∨ o = Raised time_out ∨
     ∃ i e, inspect_reply srv i = inl e ∧ o = Raised (ClientError e)).
Proof.
  induction n as [|n IH]; intros st fuel Hn Hfuel;
    (destruct fuel as [|fuel]; [lia|]).
  - rewrite Nat.add_0_r in Hn. rewrite (wait_loop_deadline _ _ _ _ _ _ _ Hn).
    do 2 eexists. split; [reflexivity|auto].
  - destruct (Qlt_le_dec (inject_Z (args.timeout a)) (minus srv (clock srv (ticks st)) start))
      as [Hex|Hle].
    { rewrite (wait_loop_deadline _ _ _ _ _ _ _ Hex).
      do 2 eexists. split; [reflexivity|auto]. }
    destruct (inspect_reply srv (polls st)) as [e|snapshot] eqn:Hq.
    { rewrite (wait_loop_unanswered _ _ _ _ _ _ _ e Hle Hq).
      do 2 eexists. split; [reflexivity|]. right. right. eauto. }
    rewrite (wait_loop_answered _ _ _ _ _ _ _ snapshot Hle Hq). cbv zeta.
    destruct (truthy _); [do 2 eexists; split; [reflexivity|auto]|].
    apply IH; [|lia]. simpl. rewrite Nat.add_succ_r in Hn. exact Hn.
Qed.

(** C4, as the code has it.  Let the wait start (no [no_wait], positive
    timeout) with the list [A] at [md]; the elapsed time is the difference of
    the clock reading and the start as the interpreter computes it.  (1) If
    [k] iterations in a row do not end the loop and the next clock reading is
    the first with [elapsed > timeout], the loop raises the time-out
    exception at that reading, before any further status query: [k] status
    queries were made.  (2) If the elapsed time computed at some clock reading
    exceeds the timeout, the loop ends by the iteration of that reading, with
    a return (confirmation), with the time-out exception, or with the error
    raised by a failed status query. *)
Theorem wait_ends_by_deadline srv a md cb st A :
  args.no_wait a = false →
  0 < args.timeout a →
  heap st !! md = Some A →
  (∀ k fuel,
     (∀ i, (i < k)%nat →
        pending_poll srv a md cb A (clock srv (ticks st))
          (S (ticks st) + i) (polls st + i)) →
     (inject_Z (args.timeout a)
      < minus srv (clock srv (S (ticks st) + k)) (clock srv (ticks st)))%Q →
     ∃ st',
       wait_operation_finish srv (k + S fuel) a md cb st = (Raised time_out, st') ∧
       trace st' = trace st ++ [EvTime (clock srv (ticks st))]
                     ++ rounds srv (S (ticks st)) k
                     ++ [EvTime (clock srv (S (ticks st) + k))] ∧
       polls st' = (polls st + k)%nat) ∧
  (∀ n fuel,
     (inject_Z (args.timeout a)
      < minus srv (clock srv (S (ticks st) + n)) (clock srv (ticks st)))%Q →
     (n < fuel)%nat →
     ∃ o st',
       wait_operation_finish srv fuel a md cb st = (o, st') ∧
       (o = Returned tt ∨ o = Raised time_out ∨
        ∃ i e, inspect_reply srv i = inl e ∧ o = Raised (ClientError e)) ∧
       ((∀ i, ∃ snapshot, inspect_reply srv i = inr snapshot) →
        o = Returned tt ∨ o = Raised time_out)).
Proof.
  intros Hnw Hto Hmd. split.
  - intros k fuel Hpend Hk.
    rewrite (wait_operation_finish_enters _ _ _ _ _ _ Hnw Hto).
    destruct (wait_loop_pending srv a md cb (clock srv (ticks st)) A k
                (ticked srv st) (S fuel) Hmd Hpend)
      as (st_k & snaps & Hrun & Htk & Hpk & Htr & _).
    change (ticks (ticked srv st)) with (S (ticks st)) in Htk, Htr.
    change (polls (ticked srv st)) with (polls st) in Hpk.
    change (trace (ticked srv st))
      with (trace st ++ [EvTime (clock srv (ticks st))]) in Htr.
    rewrite <- Htk in Hk.
    rewrite Hrun, (wait_loop_deadline _ _ _ _ _ _ _ Hk).
    eexists. split; [reflexivity|]. simpl. rewrite Htr, Htk, Hpk.
    rewrite <- !app_assoc. split; reflexivity.
  - intros n fuel Hn Hfuel.
    rewrite (wait_operation_finish_enters _ _ _ _ _ _ Hnw Hto).
    destruct (wait_loop_terminates srv a md cb (clock srv (ticks st)) n
                (ticked srv st) fuel Hn Hfuel) as (o & st' & Hrun & Ho).
    exists o, st'. split; [exact Hrun|]. split; [exact Ho|].
    intros Hall. destruct Ho as [Ho|[Ho|(i & e & Hi & _)]]; auto.
    destruct (Hall i) as (snapshot & Hs). congruence.
Qed.

Lemma wait_ends_by_deadline_witness :
  ∃ st',
    wait_operation_finish srv_rounding (1 + 3) (cli_args false 5 3) O
      undeploy_callback dispatched = (Raised time_out, st') ∧
    trace st' = trace dispatched ++ [EvTime (clock srv_rounding (ticks dispatched))]
                  ++ rounds srv_rounding (S (ticks dispatched)) 1
                  ++ [EvTime (clock srv_rounding (S (ticks dispatched) + 1))] ∧
    polls st' = (polls dispatched + 1)%nat.
Proof.
  apply (proj1 (wait_ends_by_deadline srv_rounding (cli_args false 5 3) O
                  undeploy_callback dispatched two_affected
                  eq_refl eq_refl eq_refl) 1%nat 2%nat).
  - intros i Hi. assert (i = O) as -> by lia. split.
    + apply Qle_bool_iff. vm_compute. reflexivity.
    + exists three_listed. split; [reflexivity|].
      intros h r H _. unfold undeploy_callback. rewrite H. reflexivity.
  - vm_compute. reflexivity.
Defined.

(** C4, as stated, fails: the clock of [srv_down] passes the deadline of five
    seconds, but the first status query raises, and the wait ends with that
    error: it neither returns nor raises the time-out exception, however many
    iterations are followed. *)
Lemma failed_status_query_ends_wait :
  (inject_Z (args.timeout (cli_args false 5 3))
   < minus srv_down (clock srv_down 6) (clock srv_down 0))%Q ∧
  (∀ fuel,
     fst (wait_operation_finish srv_down (S fuel) (cli_args false 5 3) O
            undeploy_callback dispatched)
     = Raised (ClientError "connection refused")) ∧
  (∀ fuel,
     fst (wait_operation_finish srv_down fuel (cli_args false 5 3) O
            undeploy_callback dispatched) ≠ Returned tt ∧
     fst (wait_operation_finish srv_down fuel (cli_args false 5 3) O
            undeploy_callback dispatched) ≠ Raised time_out).
Proof.
  assert (Hrun : ∀ fuel,
            fst (wait_operation_finish srv_down (S fuel) (cli_args false 5 3) O
                   undeploy_callback dispatched)
            = Raised (ClientError "connection refused")).
  { intros fuel.
    rewrite wait_operation_finish_enters by reflexivity.
    rewrite (wait_loop_unanswered srv_down _ _ _ _ fuel _ "connection refused");
      [reflexivity| |reflexivity].
    apply Qle_bool_iff. reflexivity. }
  split; [reflexivity|]. split; [exact Hrun|].
  intros [|fuel].
  - rewrite wait_operation_finish_enters by reflexivity.
    simpl. split; discriminate.
  - rewrite Hrun. split; discriminate.
Qed.

(** ** The list of affected deployments during the wait *)

(** What the loop leaves in the store: for each answered status query, in
    order, the answer and its copy filtered by the identities of [A]. *)
Lemma wait_loop_store srv a md cb start A fuel : ∀ st,
  heap st !! md = Some A →
  ∃ snaps,
    heap (snd (wait_loop srv fuel a md cb start st))
    = heap st ++ flat_map (poll_cells (affected_deployment_ids A)) snaps ∧
    (∀ i Sn, snaps !! i = Some Sn → inspect_reply srv (polls st + i) = inr Sn) ∧
    (polls (snd (wait_loop srv fuel a md cb start st))
     = (polls st + length snaps)%nat ∨
     polls (snd (wait_loop srv fuel a md cb start st))
     = (polls st + length snaps + 1)%nat ∧
     ∃ e, inspect_reply srv (polls st + length snaps) = inl e).
Proof.
  induction fuel as [|fuel IH]; intros st Hmd.
  { exists []. simpl. rewrite app_nil_r, Nat.add_0_r.
    split; [reflexivity|]. split; [intros i Sn H; discriminate H|auto]. }
  destruct (Qlt_le_dec (inject_Z (args.timeout a)) (minus srv (clock srv (ticks st)) start))
    as [Hex|Hle].
  { rewrite (wait_loop_deadline _ _ _ _ _ _ _ Hex).
    exists []. simpl. rewrite app_nil_r, Nat.add_0_r.
    split; [reflexivity|]. split; [intros i Sn H; discriminate H|auto]. }
  destruct (inspect_reply srv (polls st)) as [e|snapshot] eqn:Hq.
  { rewrite (wait_loop_unanswered _ _ _ _ _ _ _ e Hle Hq).
    exists []. simpl. rewrite app_nil_r, !Nat.add_0_r.
    split; [reflexivity|]. split; [intros i Sn H; discriminate H|].
    right. split; [lia|]. exists e. exact Hq. }
  rewrite (wait_loop_answered _ _ _ _ _ _ _ snapshot Hle Hq). cbv zeta.
  rewrite (contents_lookup _ _ _ Hmd).
  set (st1 := polled (affected_deployment_ids A) snapshot (ticked srv st)).
  assert (Hone : ∀ i Sn, [snapshot] !! i = Some Sn →
                         inspect_reply srv (polls st + i) = inr Sn).
  { intros [|i] Sn H; simpl in H; [|discriminate H].
    injection H as <-. rewrite Nat.add_0_r. exact Hq. }
  destruct (truthy _).
  { exists [snapshot].
    split; [reflexivity|]. split; [exact Hone|]. left. simpl. lia. }
  destruct (IH (log (EvSleep 1) st1)) as (snaps & Hh & Hsn & Hp).
  { simpl. apply lookup_grown, Hmd. }
  exists (snapshot :: snaps).
  split; [rewrite Hh; simpl; rewrite <- app_assoc; reflexivity|]. split.
  - intros [|i] Sn H; simpl in H.
    + injection H as <-. rewrite Nat.add_0_r. exact Hq.
    + apply Hsn in H. simpl in H. rewrite Nat.add_succ_r. exact H.
  - replace (polls st + length (snapshot :: snaps))%nat
      with (polls (log (EvSleep 1) st1) + length snaps)%nat by (simpl; lia).
    exact Hp.
Qed.

(** C10. During [wait_operation_finish], for any number of iterations
    followed, the list of affected deployments at [md] stays the list [A] it
    was at the start, so the set of identities computed from it stays the same,
    and every status query that answered was filtered by the identities of
    [A]: the store grew by the answers of the status queries, in order, each
    followed by its copy filtered by these identities. *)
Theorem affected_identities_invariant srv fuel a md cb st A :
  heap st !! md = Some A →
  ∃ o st' snaps,
    wait_operation_finish srv fuel a md cb st = (o, st') ∧
    heap st' !! md = Some A ∧
    affected_deployment_ids (contents (heap st') md) = affected_deployment_ids A ∧
    heap st' = heap st ++ flat_map (poll_cells (affected_deployment_ids A)) snaps ∧
    (∀ i Sn, snaps !! i = Some Sn → inspect_reply srv (polls st + i) = inr Sn) ∧
    (polls st' = (polls st + length snaps)%nat ∨
     polls st' = (polls st + length snaps + 1)%nat ∧
     ∃ e, inspect_reply srv (polls st + length snaps) = inl e).
Proof.
  intros Hmd.
  assert (Hgen : ∃ snaps,
            heap (snd (wait_operation_finish srv fuel a md cb st))
            = heap st ++ flat_map (poll_cells (affected_deployment_ids A)) snaps ∧
            (∀ i Sn, snaps !! i = Some Sn →
                     inspect_reply srv (polls st + i) = inr Sn) ∧
            (polls (snd (wait_operation_finish srv fuel a md cb st))
             = (polls st + length snaps)%nat ∨
             polls (snd (wait_operation_finish srv fuel a md cb st))
             = (polls st + length snaps + 1)%nat ∧
             ∃ e, inspect_reply srv (polls st + length snaps) = inl e)).
  { unfold wait_operation_finish.
    destruct (args.no_wait a); simpl.
    - exists []. simpl. rewrite app_nil_r, Nat.add_0_r.
      split; [reflexivity|]. split; [intros i Sn H; discriminate H|auto].
    - unfold bind at 1, time_time. simpl. unfold log. simpl.
      fold (ticked srv st). destruct (args.timeout a <=? 0).
      + exists []. simpl. rewrite app_nil_r, Nat.add_0_r.
        split; [reflexivity|]. split; [intros i Sn H; discriminate H|auto].
      + apply (wait_loop_store srv a md cb (clock srv (ticks st)) A fuel
                 (ticked srv st)). exact Hmd. }
  destruct Hgen as (snaps & Hh & Hsn & Hp).
  destruct (wait_operation_finish srv fuel a md cb st) as [o st'] eqn:Hrun.
  simpl in Hh, Hp. exists o, st', snaps.
  assert (Hmd' : heap st' !! md = Some A) by (rewrite Hh; apply lookup_grown, Hmd).
  split; [reflexivity|]. split; [exact Hmd'|].
  split; [rewrite (contents_lookup _ _ _ Hmd'); reflexivity|].
  split; [exact Hh|]. split; [exact Hsn|exact Hp].
Qed.

Lemma affected_identities_invariant_witness :
  ∃ o st' snaps,
    wait_operation_finish srv_gone 7 (cli_args false 5 3) O undeploy_callback
      dispatched = (o, st') ∧
    heap st' !! O = Some two_affected ∧
    affected_deployment_ids (contents (heap st') O)
    = affected_deployment_ids two_affected ∧
    heap st' = heap dispatched
               ++ flat_map (poll_cells (affected_deployment_ids two_affected)) snaps ∧
    (∀ i Sn, snaps !! i = Some Sn →
             inspect_reply srv_gone (polls dispatched + i) = inr Sn) ∧
    (polls st' = (polls dispatched + length snaps)%nat ∨
     polls st' = (polls dispatched + length snaps + 1)%nat ∧
     ∃ e, inspect_reply srv_gone (polls dispatched + length snaps) = inl e).
Proof.
  apply (affected_identities_invariant srv_gone 7 (cli_args false 5 3) O
           undeploy_callback dispatched two_affected).
  reflexivity.
Defined.

(** ** The expected count of the scale and deploy operations *)

Lemma dispatch_answered srv r st affected :
  dispatch_reply srv r = inr affected →
  dispatch srv r st = (Returned (length (heap st)), requested r affected st).
Proof. intros H. unfold dispatch. rewrite H. reflexivity. Qed.

Lemma scaled_callback_count a md h r :
  scaled_callback a md h r
  = Some (check_all_scaled (contents h r) (args.scale a)
            (Z.of_nat (length (contents h md)))) ∧
  (truthy (scaled_callback a md h r) = true ↔
   length (filter (qualifying (args.scale a)) (contents h r))
   = length (contents h md)).
Proof.
  split; [reflexivity|]. unfold scaled_callback, check_all_scaled.
  rewrite finally_deployed_qualifying. simpl.
  destruct (Z.eqb_spec
              (Z.of_nat (length (filter (qualifying (args.scale a)) (contents h r))))
              (Z.of_nat (length (contents h md)))) as [E|E]; simpl.
  - split; [intros _; lia|reflexivity].
  - split; [discriminate|intros H; lia].
Qed.

Lemma count_first_poll_inspect r t0 t1 :
  count is_inspect [EvRequest r; EvTime t0; EvTime t1; EvInspect] = 1%nat.
Proof. reflexivity. Qed.

Lemma count_first_poll_sleep r t0 t1 :
  count is_sleep [EvRequest r; EvTime t0; EvTime t1; EvInspect] = O.
Proof. reflexivity. Qed.

(** A request that affects nothing is confirmed by the first status query,
    whatever it lists. *)
Lemma scaled_wait_nothing_affected srv fuel a st r Sn :
  args.no_wait a = false →
  0 < args.timeout a →
  (minus srv (clock srv (S (ticks st))) (clock srv (ticks st)) <= inject_Z (args.timeout a))%Q →
  inspect_reply srv (polls st) = inr Sn →
  ∃ st',
    wait_operation_finish srv (S fuel) a (length (heap st))
      (scaled_callback a (length (heap st))) (requested r [] st)
    = (Returned tt, st') ∧
    trace st' = trace st ++ [EvRequest r; EvTime (clock srv (ticks st));
                             EvTime (clock srv (S (ticks st))); EvInspect] ∧
    polls st' = S (polls st).
Proof.
  intros Hnw Hto Ht Hq.
  rewrite (wait_operation_finish_enters _ _ _ _ _ _ Hnw Hto).
  set (st0 := requested r [] st).
  assert (Hmd : heap (ticked srv st0) !! length (heap st) = Some [])
    by (simpl; rewrite lookup_app_r by lia; rewrite Nat.sub_diag; reflexivity).
  pose proof (wait_loop_answered srv a (length (heap st))
                (scaled_callback a (length (heap st)))
                (clock srv (ticks st0)) fuel (ticked srv st0) Sn Ht Hq) as Hstep.
  cbv zeta in Hstep. rewrite (contents_lookup _ _ _ Hmd) in Hstep.
  assert (Hcb : truthy (scaled_callback a (length (heap st))
                   (heap (polled (affected_deployment_ids []) Sn
                            (ticked srv (ticked srv st0))))
                   (S (length (heap (ticked srv st0))))) = true).
  { apply scaled_callback_count. simpl heap.
    rewrite contents_polled, related_deployments_nil.
    rewrite (contents_lookup _ _ [] (lookup_grown _ _ _ _ Hmd)). reflexivity. }
  rewrite Hcb in Hstep. eexists. split; [exact Hstep|].
  simpl. rewrite <- !app_assoc. split; reflexivity.
Qed.

(** The expected count is the length of the list, not the number of distinct
    identities: when the request returns the same deployment twice, one
    qualifying descriptor does not confirm. *)
Example duplicates_are_counted_twice :
  let d := deployment "a" 3 (Some true) in
  size (affected_deployment_ids [d; d]) = 1%nat ∧
  truthy (scaled_callback (cli_args false 5 3) O [[d; d]; [d]] 1%nat) = false.
Proof. split; vm_compute; reflexivity. Qed.

(** ** Whole runs *)

(** The deploy of [srv_rollout] is confirmed by the third status query. *)
Example deploy_confirmed_by_third_poll :
  fst (deploy_kubernetes srv_rollout 10 (cli_args false 60 3) init) = Returned tt ∧
  polls (snd (deploy_kubernetes srv_rollout 10 (cli_args false 60 3) init)) = 3%nat ∧
  count is_sleep
    (trace (snd (deploy_kubernetes srv_rollout 10 (cli_args false 60 3) init)))
  = 2%nat.
Proof. repeat split; vm_compute; reflexivity. Qed.

(** The undeploy of [srv_gone] is confirmed by the second status query. *)
Example undeploy_confirmed_by_second_poll :
  fst (undeploy_kubernetes srv_gone 10 (cli_args false 60 3) init) = Returned tt ∧
  polls (snd (undeploy_kubernetes srv_gone 10 (cli_args false 60 3) init)) = 2%nat.
Proof. split; vm_compute; reflexivity. Qed.

(** A scale that is never confirmed times out at the first clock reading
    past five seconds, after five status queries. *)
Example scale_times_out :
  fst (scale_kubernetes srv_stuck 10 (cli_args false 5 3) init) = Raised time_out ∧
  polls (snd (scale_kubernetes srv_stuck 10 (cli_args false 5 3) init)) = 5%nat ∧
  last (trace (snd (scale_kubernetes srv_stuck 10 (cli_args false 5 3) init)))
  = Some (EvTime (seconds 6)).
Proof. repeat split; vm_compute; reflexivity. Qed.

(** ** The wait as a whole *)

Lemma wait_loop_confirms srv a md cb start A k fuel st Sn :
  heap st !! md = Some A →
  (∀ i, (i < k)%nat →
     pending_poll srv a md cb A start (ticks st + i) (polls st + i)) →
  (minus srv (clock srv (ticks st + k)) start <= inject_Z (args.timeout a))%Q →
  inspect_reply srv (polls st + k) = inr Sn →
  (∀ h r, contents h r = related_deployments (affected_deployment_ids A) Sn →
          contents h md = A → truthy (cb h r) = true) →
  ∃ st',
    wait_loop srv (k + S fuel) a md cb start st = (Returned tt, st') ∧
    trace st' = trace st ++ rounds srv (ticks st) k
                  ++ [EvTime (clock srv (ticks st + k)); EvInspect] ∧
    polls st' = (polls st + k + 1)%nat.
Proof.
  intros Hmd Hpend Ht Hq Hcb.
  destruct (wait_loop_pending srv a md cb start A k st (S fuel) Hmd Hpend)
    as (st_k & snaps & Hrun & Htk & Hpk & Htr & Hh & _ & _).
  assert (Hmdk : heap st_k !! md = Some A) by (rewrite Hh; apply lookup_grown, Hmd).
  rewrite <- Htk in Ht. rewrite <- Hpk in Hq.
  pose proof (wait_loop_answered srv a md cb start fuel st_k Sn Ht Hq) as Hstep.
  cbv zeta in Hstep. rewrite (contents_lookup _ _ _ Hmdk) in Hstep.
  rewrite Hcb in Hstep.
  - eexists. split; [rewrite Hrun; exact Hstep|]. simpl.
    rewrite Htr, Htk, Hpk, <- !app_assoc. split; [reflexivity|lia].
  - simpl. apply contents_polled.
  - simpl. apply contents_lookup, lookup_grown, Hmdk.
Qed.

Lemma wait_loop_aborts srv a md cb start A k fuel st e :
  heap st !! md = Some A →
  (∀ i, (i < k)%nat →
     pending_poll srv a md cb A start (ticks st + i) (polls st + i)) →
  (minus srv (clock srv (ticks st + k)) start <= inject_Z (args.timeout a))%Q →
  inspect_reply srv (polls st + k) = inl e →
  ∃ st',
    wait_loop srv (k + S fuel) a md cb start st = (Raised (ClientError e), st') ∧
    trace st' = trace st ++ rounds srv (ticks st) k
                  ++ [EvTime (clock srv (ticks st + k)); EvInspect] ∧
    polls st' = (polls st + k + 1)%nat.
Proof.
  intros Hmd Hpend Ht Hq.
  destruct (wait_loop_pending srv a md cb start A k st (S fuel) Hmd Hpend)
    as (st_k & snaps & Hrun & Htk & Hpk & Htr & _).
  rewrite <- Htk in Ht. rewrite <- Hpk in Hq.
  rewrite Hrun, (wait_loop_unanswered srv a md cb start fuel st_k e Ht Hq).
  eexists. split; [reflexivity|]. simpl.
  rewrite Htr, Htk, Hpk, <- !app_assoc. split; [reflexivity|lia].
Qed.

(** X1. A status query that raises ends the wait at once with the error it
    raised: after [k] iterations that did not end the loop, a query that
    raises within the deadline is the last effect of the wait; the callback
    is not called again, nothing is retried and no sleep follows. *)
Theorem failed_status_query_aborts_wait srv a md cb st A k fuel e :
  args.no_wait a = false →
  0 < args.timeout a →
  heap st !! md = Some A →
  (∀ i, (i < k)%nat →
     pending_poll srv a md cb A (clock srv (ticks st))
       (S (ticks st) + i) (polls st + i)) →
  (minus srv (clock srv (S (ticks st) + k)) (clock srv (ticks st))
   <= inject_Z (args.timeout a))%Q →
  inspect_reply srv (polls st + k) = inl e →
  ∃ st',
    wait_operation_finish srv (k + S fuel) a md cb st
    = (Raised (ClientError e), st') ∧
    trace st' = trace st ++ [EvTime (clock srv (ticks st))]
                  ++ rounds srv (S (ticks st)) k
                  ++ [EvTime (clock srv (S (ticks st) + k)); EvInspect] ∧
    polls st' = (polls st + k + 1)%nat.
Proof.
  intros Hnw Hto Hmd Hpend Ht Hq.
  rewrite (wait_operation_finish_enters _ _ _ _ _ _ Hnw Hto).
  destruct (wait_loop_aborts srv a md cb (clock srv (ticks st)) A k fuel
              (ticked srv st) e Hmd Hpend Ht Hq) as (st' & Hrun & Htr & Hp).
  exists st'. split; [exact Hrun|]. split; [|exact Hp].
  rewrite Htr. simpl. rewrite <- !app_assoc. reflexivity.
Qed.

Lemma failed_status_query_aborts_wait_witness :
  ∃ st',
    wait_operation_finish srv_flaky (1 + 4) (cli_args false 5 3) O
      undeploy_callback dispatched
    = (Raised (ClientError "502 Bad Gateway"), st') ∧
    trace st' = trace dispatched ++ [EvTime (clock srv_flaky (ticks dispatched))]
                  ++ rounds srv_flaky (S (ticks dispatched)) 1
                  ++ [EvTime (clock srv_flaky (S (ticks dispatched) + 1)); EvInspect] ∧
    polls st' = (polls dispatched + 1 + 1)%nat.
Proof.
  apply (failed_status_query_aborts_wait srv_flaky (cli_args false 5 3) O
           undeploy_callback dispatched two_affected 1 3 "502 Bad Gateway").
  - reflexivity.
  - reflexivity.
  - reflexivity.
  - intros i Hi. assert (i = O) as -> by lia. split.
    + apply Qle_bool_iff. reflexivity.
    + exists three_listed. split; [reflexivity|].
      intros h r H _. unfold undeploy_callback. rewrite H. reflexivity.
  - apply Qle_bool_iff. reflexivity.
  - reflexivity.
Defined.

(** X2. The loop has no bound of its own on the number of iterations: as long
    as the clock readings stay within the deadline, the status queries answer
    and the callback is falsy, it goes on polling; after [n] iterations it
    has made [n] status queries and [n] sleeps and has not ended. *)
Theorem wait_polls_while_pending srv a md cb st A n :
  args.no_wait a = false →
  0 < args.timeout a →
  heap st !! md = Some A →
  (∀ i, (i < n)%nat →
     pending_poll srv a md cb A (clock srv (ticks st))
       (S (ticks st) + i) (polls st + i)) →
  ∃ st',
    wait_operation_finish srv n a md cb st = (Diverged, st') ∧
    trace st' = trace st ++ [EvTime (clock srv (ticks st))]
                  ++ rounds srv (S (ticks st)) n ∧
    polls st' = (polls st + n)%nat ∧
    heap st' !! md = Some A.
Proof.
  intros Hnw Hto Hmd Hpend.
  rewrite (wait_operation_finish_enters _ _ _ _ _ _ Hnw Hto).
  destruct (wait_loop_pending srv a md cb (clock srv (ticks st)) A n
              (ticked srv st) O Hmd Hpend)
    as (st_n & snaps & Hrun & _ & Hp & Htr & Hh & _).
  rewrite Nat.add_0_r in Hrun. exists st_n. split; [exact Hrun|].
  split; [rewrite Htr; simpl; rewrite <- app_assoc; reflexivity|].
  split; [exact Hp|]. rewrite Hh. apply lookup_grown, Hmd.
Qed.

Lemma wait_polls_while_pending_witness :
  ∃ st',
    wait_operation_finish srv_frozen 40 (cli_args false 5 3) O
      undeploy_callback dispatched = (Diverged, st') ∧
    trace st' = trace dispatched ++ [EvTime (clock srv_frozen (ticks dispatched))]
                  ++ rounds srv_frozen (S (ticks dispatched)) 40 ∧
    polls st' = (polls dispatched + 40)%nat ∧
    heap st' !! O = Some two_affected.
Proof.
  apply (wait_polls_while_pending srv_frozen (cli_args false 5 3) O
           undeploy_callback dispatched two_affected 40).
  - reflexivity.
  - reflexivity.
  - reflexivity.
  - intros i Hi. split.
    + apply Qle_bool_iff. reflexivity.
    + exists three_listed. split; [reflexivity|].
      intros h r H _. unfold undeploy_callback. rewrite H. reflexivity.
Defined.

(** ** The wait flags in the three operations *)

(** X3. With [no_wait] set, each of the three operations sends its request
    and returns: when the request is answered, the request is the only
    effect; the clock is not read and no status query is made, whatever the
    timeout. *)
Theorem no_wait_operation_only_dispatches srv fuel a st A :
  args.no_wait a = true →
  (dispatch_reply srv (Undeploy (args.model_id a) (args.grace_period a)
                         (args.model_version a) (args.ignore_not_found a))
   = inr A →
   undeploy_kubernetes srv fuel a st
   = (Returned tt,
      requested (Undeploy (args.model_id a) (args.grace_period a)
                   (args.model_version a) (args.ignore_not_found a)) A st)) ∧
  (dispatch_reply srv (Scale (args.model_id a) (args.scale a) (args.model_version a))
   = inr A →
   scale_kubernetes srv fuel a st
   = (Returned tt,
      requested (Scale (args.model_id a) (args.scale a) (args.model_version a))
        A st)) ∧
  (dispatch_reply srv (Deploy (args.image a) (args.model_iam_role a) (args.scale a)
                         (args.livenesstimeout a) (args.readinesstimeout a))
   = inr A →
   deploy_kubernetes srv fuel a st
   = (Returned tt,
      requested (Deploy (args.image a) (args.model_iam_role a) (args.scale a)
                   (args.livenesstimeout a) (args.readinesstimeout a)) A st)).
Proof.
  intros Hnw.
  unfold undeploy_kubernetes, scale_kubernetes, deploy_kubernetes, bind.
  split; [|split]; intros H; rewrite (dispatch_answered _ _ _ _ H);
    unfold wait_operation_finish; rewrite Hnw; reflexivity.
Qed.

Lemma no_wait_operation_only_dispatches_witness :
  scale_kubernetes srv_stuck 7 (cli_args true 0 3) init
  = (Returned tt,
     {| heap := [two_affected]; ticks := O; polls := O;
        trace := [EvRequest (Scale "m" 3 None)] |}).
Proof.
  apply (proj1 (proj2 (no_wait_operation_only_dispatches srv_stuck 7
                         (cli_args true 0 3) init two_affected eq_refl))).
  reflexivity.
Defined.

(** X4. A timeout that is zero or negative is detected only after the
    request has been sent: with [no_wait] unset, when the request is
    answered, each of the three operations raises the invalid-timeout
    exception with the request already made, followed by one clock reading
    and no status query. *)
Theorem invalid_timeout_after_dispatch srv fuel a st A :
  args.no_wait a = false →
  args.timeout a <= 0 →
  (dispatch_reply srv (Undeploy (args.model_id a) (args.grace_period a)
                         (args.model_version a) (args.ignore_not_found a))
   = inr A →
   undeploy_kubernetes srv fuel a st
   = (Raised invalid_timeout,
      ticked srv
        (requested (Undeploy (args.model_id a) (args.grace_period a)
                      (args.model_version a) (args.ignore_not_found a)) A st))) ∧
  (dispatch_reply srv (Scale (args.model_id a) (args.scale a) (args.model_version a))
   = inr A →
   scale_kubernetes srv fuel a st
   = (Raised invalid_timeout,
      ticked srv
        (requested (Scale (args.model_id a) (args.scale a) (args.model_version a))
           A st))) ∧
  (dispatch_reply srv (Deploy (args.image a) (args.model_iam_role a) (args.scale a)
                         (args.livenesstimeout a) (args.readinesstimeout a))
   = inr A →
   deploy_kubernetes srv fuel a st
   = (Raised invalid_timeout,
      ticked srv
        (requested (Deploy (args.image a) (args.model_iam_role a) (args.scale a)
                      (args.livenesstimeout a) (args.readinesstimeout a)) A st))).
Proof.
  intros Hnw Hto. apply Z.leb_le in Hto.
  unfold undeploy_kubernetes, scale_kubernetes, deploy_kubernetes, bind.
  split; [|split]; intros H; rewrite (dispatch_answered _ _ _ _ H);
    unfold wait_operation_finish; rewrite Hnw; simpl;
    unfold bind, time_time; simpl; rewrite Hto; reflexivity.
Qed.

Lemma invalid_timeout_after_dispatch_witness :
  deploy_kubernetes srv_stuck 7 (cli_args false (-1) 3) init
  = (Raised invalid_timeout,
     {| heap := [two_affected]; ticks := 1; polls := O;
        trace := [EvRequest (Deploy "legion/model" None 3 2 2);
                  EvTime (seconds 0)] |}).
Proof.
  apply (proj2 (proj2 (invalid_timeout_after_dispatch srv_stuck 7
                         (cli_args false (-1) 3) init two_affected
                         eq_refl ltac:(simpl; lia)))).
  reflexivity.
Defined.

(** ** The number of status queries *)

Lemma wait_loop_query_bound srv a md cb start n : ∀ st fuel,
  (inject_Z (args.timeout a) < minus srv (clock srv (ticks st + n)) start)%Q →
  (n < fuel)%nat →
  ∃ o st',
    wait_loop srv fuel a md cb start st = (o, st') ∧
    o ≠ Diverged ∧
    (polls st' ≤ polls st + n)%nat.
Proof.
  induction n as [|n IH]; intros st fuel Hn Hfuel;
    (destruct fuel as [|fuel]; [lia|]).
  - rewrite Nat.add_0_r in Hn. rewrite (wait_loop_deadline _ _ _ _ _ _ _ Hn).
    do 2 eexists. split; [reflexivity|]. split; [discriminate|simpl; lia].
  - destruct (Qlt_le_dec (inject_Z (args.timeout a)) (minus srv (clock srv (ticks st)) start))
      as [Hex|Hle].
    { rewrite (wait_loop_deadline _ _ _ _ _ _ _ Hex).
      do 2 eexists. split; [reflexivity|]. split; [discriminate|simpl; lia]. }
    destruct (inspect_reply srv (polls st)) as [e|snapshot] eqn:Hq.
    { rewrite (wait_loop_unanswered _ _ _ _ _ _ _ e Hle Hq).
      do 2 eexists. split; [reflexivity|]. split; [discriminate|simpl; lia]. }
    rewrite (wait_loop_answered _ _ _ _ _ _ _ snapshot Hle Hq). cbv zeta.
    destruct (truthy _).
    { do 2 eexists. split; [reflexivity|]. split; [discriminate|simpl; lia]. }
    match goal with
    | |- context [wait_loop _ _ _ _ _ _ ?s] =>
        destruct (IH s fuel) as (o & st' & Hrun & Ho & Hp)
    end.
    { simpl. rewrite Nat.add_succ_r in Hn. exact Hn. }
    { lia. }
    exists o, st'. split; [exact Hrun|]. split; [exact Ho|]. simpl in Hp. lia.
Qed.

Lemma clock_after_sleeps (c : nat → Q) t n :
  (c t <= c (S t))%Q →
  (∀ j, (c (S t + j)%nat + 1 <= c (S (S t) + j)%nat)%Q) →
  (c t + inject_Z (Z.of_nat n) <= c (S t + n)%nat)%Q.
Proof.
  intros Hfirst Hsleep. induction n as [|n IH].
  - rewrite Nat.add_0_r. change (inject_Z (Z.of_nat 0)) with 0%Q. lra.
  - rewrite Nat2Z.inj_succ. unfold Z.succ. rewrite inject_Z_plus.
    specialize (Hsleep n). rewrite Nat.add_succ_r.
    change (inject_Z 1) with 1%Q. simpl in Hsleep, IH. simpl. lra.
Qed.

Lemma seconds_succ n : (seconds n + 1 <= seconds (S n))%Q.
Proof.
  unfold seconds. rewrite Nat2Z.inj_succ. unfold Z.succ.
  rewrite inject_Z_plus. change (inject_Z 1) with 1%Q. lra.
Qed.

(** X5. When the clock does not go back between the start of the wait and
    the first iteration, each later iteration reads the clock at least one
    second after the one before (the loop sleeps one second in between), and
    a difference of at least [timeout + 1] seconds is computed as at least
    [timeout + 1] (rounding is monotone, and [timeout + 1] is a float), the
    wait ends and makes at most [timeout + 1] status queries. *)
Theorem status_queries_bounded_by_timeout srv a md cb st fuel :
  args.no_wait a = false →
  0 < args.timeout a →
  (clock srv (ticks st) <= clock srv (S (ticks st)))%Q →
  (∀ j, (clock srv (S (ticks st) + j)%nat + 1
         <= clock srv (S (S (ticks st)) + j)%nat)%Q) →
  (∀ x y, (x + inject_Z (args.timeout a + 1) <= y)%Q →
          (inject_Z (args.timeout a + 1) <= minus srv y x)%Q) →
  (Z.to_nat (args.timeout a) + 1 < fuel)%nat →
  ∃ o st',
    wait_operation_finish srv fuel a md cb st = (o, st') ∧
    o ≠ Diverged ∧
    (polls st' ≤ polls st + Z.to_nat (args.timeout a) + 1)%nat.
Proof.
  intros Hnw Hto Hfirst Hsleep Hminus Hfuel.
  rewrite (wait_operation_finish_enters _ _ _ _ _ _ Hnw Hto).
  destruct (wait_loop_query_bound srv a md cb (clock srv (ticks st))
              (Z.to_nat (args.timeout a) + 1) (ticked srv st) fuel)
    as (o & st' & Hrun & Ho & Hp).
  - pose proof (clock_after_sleeps (clock srv) (ticks st)
                  (Z.to_nat (args.timeout a) + 1) Hfirst Hsleep) as Hc.
    rewrite Nat2Z.inj_add, Z2Nat.id in Hc by lia.
    change (Z.of_nat 1) with 1 in Hc. apply Hminus in Hc.
    change (ticks (ticked srv st)) with (S (ticks st)).
    eapply Qlt_le_trans; [|exact Hc]. rewrite <- Zlt_Qlt. lia.
  - exact Hfuel.
  - exists o, st'. split; [exact Hrun|]. split; [exact Ho|].
    simpl in Hp. lia.
Qed.

Lemma status_queries_bounded_by_timeout_witness :
  ∃ o st',
    wait_operation_finish srv_stuck 8 (cli_args false 5 3) O undeploy_callback
      dispatched = (o, st') ∧
    o ≠ Diverged ∧
    (polls st' ≤ polls dispatched + Z.to_nat (args.timeout (cli_args false 5 3)) + 1)%nat.
Proof.
  apply (status_queries_bounded_by_timeout srv_stuck (cli_args false 5 3) O
           undeploy_callback dispatched 8).
  - reflexivity.
  - reflexivity.
  - apply Qle_bool_iff. reflexivity.
  - intros j. exact (seconds_succ (S (ticks dispatched) + j)).
  - intros x y H. simpl. unfold Qminus. simpl in H. lra.
  - simpl. lia.
Defined.

(** ** The three operations, from request to confirmation *)

Lemma still_listed_pending srv a md A start t p :
  still_listed srv a A start t p →
  pending_poll srv a md undeploy_callback A start t p.
Proof.
  intros (Ht & snapshot & Hq & Hl). split; [exact Ht|].
  exists snapshot. split; [exact Hq|]. intros h r Hr _.
  unfold undeploy_callback. rewrite Hr.
  destruct (related_deployments (affected_deployment_ids A) snapshot);
    [contradiction|reflexivity].
Qed.

Lemma not_yet_scaled_pending srv a md A start t p :
  not_yet_scaled srv a A start t p →
  pending_poll srv a md (scaled_callback a md) A start t p.
Proof.
  intros (Ht & snapshot & Hq & Hl). split; [exact Ht|].
  exists snapshot. split; [exact Hq|]. intros h r Hr Hmd.
  destruct (truthy (scaled_callback a md h r)) eqn:E; [|reflexivity].
  apply scaled_callback_count in E. rewrite Hr, Hmd in E. contradiction.
Qed.

Lemma related_deployments_none A (Sn : list ModelDeploymentDescription) :
  (∀ d, d ∈ Sn → ¬ identity_in A d) →
  related_deployments (affected_deployment_ids A) Sn = [].
Proof.
  intros H. rewrite related_deployments_identity_in.
  induction Sn as [|d Sn IH]; [reflexivity|].
  rewrite filter_cons_False by (apply H; left).
  apply IH. intros d' Hd'. apply H. right. exact Hd'.
Qed.

(** A request followed by the wait, with [k] polls that do not end the loop
    and one that confirms. *)
Lemma dispatched_wait_confirms srv a st r A (cbf : loc → callback) k fuel Sn :
  dispatch_reply srv r = inr A →
  args.no_wait a = false →
  0 < args.timeout a →
  (∀ i, (i < k)%nat →
     pending_poll srv a (length (heap st)) (cbf (length (heap st))) A
       (clock srv (ticks st)) (S (ticks st) + i) (polls st + i)) →
  (minus srv (clock srv (S (ticks st) + k)) (clock srv (ticks st))
   <= inject_Z (args.timeout a))%Q →
  inspect_reply srv (polls st + k) = inr Sn →
  (∀ h r', contents h r' = related_deployments (affected_deployment_ids A) Sn →
           contents h (length (heap st)) = A →
           truthy (cbf (length (heap st)) h r') = true) →
  ∃ st',
    bind (dispatch srv r)
      (λ md, wait_operation_finish srv (k + S fuel) a md (cbf md)) st
    = (Returned tt, st') ∧
    trace st' = trace st ++ [EvRequest r; EvTime (clock srv (ticks st))]
                  ++ rounds srv (S (ticks st)) k
                  ++ [EvTime (clock srv (S (ticks st) + k)); EvInspect] ∧
    polls st' = (polls st + k + 1)%nat.
Proof.
  intros Hd Hnw Hto Hpend Ht Hq Hcb. unfold bind.
  rewrite (dispatch_answered _ _ _ _ Hd).
  rewrite (wait_operation_finish_enters _ _ _ _ _ _ Hnw Hto).
  set (st0 := requested r A st).
  assert (Hmd : heap (ticked srv st0) !! length (heap st) = Some A)
    by (simpl; rewrite lookup_app_r by lia; rewrite Nat.sub_diag; reflexivity).
  destruct (wait_loop_confirms srv a (length (heap st)) (cbf (length (heap st)))
              (clock srv (ticks st0)) A k fuel (ticked srv st0) Sn
              Hmd Hpend Ht Hq Hcb) as (st' & Hrun & Htr & Hp).
  exists st'. split; [exact Hrun|]. split; [|exact Hp].
  rewrite Htr. simpl. rewrite <- !app_assoc. reflexivity.
Qed.

(** X6. An undeploy is confirmed by the first status query that lists none
    of the affected identities: when the request returns [A], [k] polls in
    a row still list an affected deployment and the next answer lists none,
    [undeploy_kubernetes] returns after [k + 1] status queries and [k]
    sleeps. *)
Theorem undeploy_confirmed_once_gone srv a st A k fuel Sn :
  dispatch_reply srv (Undeploy (args.model_id a) (args.grace_period a)
                        (args.model_version a) (args.ignore_not_found a))
  = inr A →
  args.no_wait a = false →
  0 < args.timeout a →
  (∀ i, (i < k)%nat →
     still_listed srv a A (clock srv (ticks st)) (S (ticks st) + i) (polls st + i)) →
  (minus srv (clock srv (S (ticks st) + k)) (clock srv (ticks st))
   <= inject_Z (args.timeout a))%Q →
  inspect_reply srv (polls st + k) = inr Sn →
  (∀ d, d ∈ Sn → ¬ identity_in A d) →
  ∃ st',
    undeploy_kubernetes srv (k + S fuel) a st = (Returned tt, st') ∧
    trace st' = trace st
                  ++ [EvRequest (Undeploy (args.model_id a) (args.grace_period a)
                                   (args.model_version a) (args.ignore_not_found a));
                      EvTime (clock srv (ticks st))]
                  ++ rounds srv (S (ticks st)) k
                  ++ [EvTime (clock srv (S (ticks st) + k)); EvInspect] ∧
    polls st' = (polls st + k + 1)%nat.
Proof.
  intros Hd Hnw Hto Hpend Ht Hq Hgone.
  apply (dispatched_wait_confirms srv a st _ A (λ _, undeploy_callback) k fuel Sn
           Hd Hnw Hto); [|exact Ht|exact Hq|].
  - intros i Hi. apply still_listed_pending, Hpend, Hi.
  - intros h r' Hr _. unfold undeploy_callback.
    rewrite Hr, (related_deployments_none A Sn Hgone). reflexivity.
Qed.

Lemma undeploy_confirmed_once_gone_witness :
  ∃ st',
    undeploy_kubernetes srv_gone (1 + 4) (cli_args false 5 3) init
    = (Returned tt, st') ∧
    trace st' = trace init
                  ++ [EvRequest (Undeploy "m" 0 None false);
                      EvTime (clock srv_gone (ticks init))]
                  ++ rounds srv_gone (S (ticks init)) 1
                  ++ [EvTime (clock srv_gone (S (ticks init) + 1)); EvInspect] ∧
    polls st' = (polls init + 1 + 1)%nat.
Proof.
  apply (undeploy_confirmed_once_gone srv_gone (cli_args false 5 3) init
           two_affected 1 3 [deployment "c" 3 None]).
  - reflexivity.
  - reflexivity.
  - reflexivity.
  - intros i Hi. assert (i = O) as -> by lia. split.
    + apply Qle_bool_iff. reflexivity.
    + exists three_listed. split; [reflexivity|]. vm_compute. discriminate.
  - apply Qle_bool_iff. reflexivity.
  - reflexivity.
  - intros d Hd. apply list_elem_of_singleton in Hd. subst d.
    unfold identity_in. simpl.
    rewrite !elem_of_cons, elem_of_nil.
    intros [H|[H|H]]; [discriminate H|discriminate H|exact H].
Defined.

(** X7. A scale or a deploy is confirmed by the first status query at which
    as many affected descriptors are at the requested scale with a responsive
    endpoint as the request returned deployments: when the request returns
    [A], [k] polls in a row show another number and the next one shows that
    number, the operation returns after [k + 1] status queries and [k]
    sleeps. *)
Theorem scale_confirmed_once_scaled srv a st A k fuel Sn :
  args.no_wait a = false →
  0 < args.timeout a →
  (∀ i, (i < k)%nat →
     not_yet_scaled srv a A (clock srv (ticks st))
       (S (ticks st) + i) (polls st + i)) →
  (minus srv (clock srv (S (ticks st) + k)) (clock srv (ticks st))
   <= inject_Z (args.timeout a))%Q →
  inspect_reply srv (polls st + k) = inr Sn →
  length (filter (qualifying (args.scale a))
            (related_deployments (affected_deployment_ids A) Sn)) = length A →
  (dispatch_reply srv (Scale (args.model_id a) (args.scale a) (args.model_version a))
   = inr A →
   ∃ st',
     scale_kubernetes srv (k + S fuel) a st = (Returned tt, st') ∧
     trace st' = trace st
                   ++ [EvRequest (Scale (args.model_id a) (args.scale a)
                                    (args.model_version a));
                       EvTime (clock srv (ticks st))]
                   ++ rounds srv (S (ticks st)) k
                   ++ [EvTime (clock srv (S (ticks st) + k)); EvInspect] ∧
     polls st' = (polls st + k + 1)%nat) ∧
  (dispatch_reply srv (Deploy (args.image a) (args.model_iam_role a) (args.scale a)
                         (args.livenesstimeout a) (args.readinesstimeout a))
   = inr A →
   ∃ st',
     deploy_kubernetes srv (k + S fuel) a st = (Returned tt, st') ∧
     trace st' = trace st
                   ++ [EvRequest (Deploy (args.image a) (args.model_iam_role a)
                                    (args.scale a) (args.livenesstimeout a)
                                    (args.readinesstimeout a));
                       EvTime (clock srv (ticks st))]
                   ++ rounds srv (S (ticks st)) k
                   ++ [EvTime (clock srv (S (ticks st) + k)); EvInspect] ∧
     polls st' = (polls st + k + 1)%nat).
Proof.
  intros Hnw Hto Hpend Ht Hq Hscaled.
  assert (Hcb : ∀ h r',
            contents h r' = related_deployments (affected_deployment_ids A) Sn →
            contents h (length (heap st)) = A →
            truthy (scaled_callback a (length (heap st)) h r') = true).
  { intros h r' Hr Hmd. apply scaled_callback_count.
    rewrite Hr, Hmd. exact Hscaled. }
  split; intros Hd.
  - apply (dispatched_wait_confirms srv a st _ A (scaled_callback a) k fuel Sn
             Hd Hnw Hto); [|exact Ht|exact Hq|exact Hcb].
    intros i Hi. apply not_yet_scaled_pending, Hpend, Hi.
  - apply (dispatched_wait_confirms srv a st _ A (scaled_callback a) k fuel Sn
             Hd Hnw Hto); [|exact Ht|exact Hq|exact Hcb].
    intros i Hi. apply not_yet_scaled_pending, Hpend, Hi.
Qed.

Lemma scale_confirmed_once_scaled_witness :
  ∃ st',
    deploy_kubernetes srv_rollout (2 + 4) (cli_args false 60 3) init
    = (Returned tt, st') ∧
    trace st' = trace init
                  ++ [EvRequest (Deploy "legion/model" None 3 2 2);
                      EvTime (clock srv_rollout (ticks init))]
                  ++ rounds srv_rollout (S (ticks init)) 2
                  ++ [EvTime (clock srv_rollout (S (ticks init) + 2)); EvInspect] ∧
    polls st' = (polls init + 2 + 1)%nat.
Proof.
  apply (proj2 (scale_confirmed_once_scaled srv_rollout (cli_args false 60 3) init
                  three_affected 2 3
                  [deployment "a" 3 (Some true); deployment "z" 3 (Some true);
                   deployment "b" 3 (Some true); deployment "c" 3 (Some true)]
                  eq_refl eq_refl
                  ltac:(intros i Hi; split;
                        [do 2 (destruct i as [|i];
                               [apply Qle_bool_iff; reflexivity|]); lia
                        |do 2 (destruct i as [|i];
                               [eexists; split; [reflexivity|];
                                vm_compute; discriminate|]); lia])
                  ltac:(apply Qle_bool_iff; reflexivity)
                  eq_refl
                  ltac:(vm_compute; reflexivity))).
  reflexivity.
Defined.

(** ** What the completion checks depend on *)





(** X9. Neither completion check depends on the order of the lists: for a
    list of affected deployments and a status listing given in another
    order, the filtered listing is a permutation of the original one, so
    [check_all_scaled] against the number of affected deployments gives the
    same answer and the filtered listing is empty in both cases or in
    neither. *)
Theorem confirmation_ignores_order
    (A A' Sn Sn' : list ModelDeploymentDescription) (N : Z) :
  A ≡ₚ A' →
  Sn ≡ₚ Sn' →
  related_deployments (affected_deployment_ids A) Sn
  ≡ₚ related_deployments (affected_deployment_ids A') Sn' ∧
  check_all_scaled (related_deployments (affected_deployment_ids A) Sn) N
    (Z.of_nat (length A))
  = check_all_scaled (related_deployments (affected_deployment_ids A') Sn') N
      (Z.of_nat (length A')) ∧
  (related_deployments (affected_deployment_ids A) Sn = [] ↔
   related_deployments (affected_deployment_ids A') Sn' = []).
Proof.
  intros HA HS.
  assert (Hids : affected_deployment_ids A = affected_deployment_ids A').
  { unfold affected_deployment_ids. apply list_to_set_perm_L.
    apply fmap_Permutation, HA. }
  assert (Hrel : related_deployments (affected_deployment_ids A) Sn
                 ≡ₚ related_deployments (affected_deployment_ids A') Sn').
  { rewrite Hids. unfold related_deployments. apply filter_Permutation, HS. }
  split; [exact Hrel|]. split.
  - unfold check_all_scaled. rewrite !finally_deployed_qualifying.
    rewrite (Permutation_length HA).
    rewrite (Permutation_length
               (filter_Permutation (qualifying N) _ _ Hrel)).
    reflexivity.
  - split; intros H; rewrite H in Hrel.
    + symmetry in Hrel. apply Permutation_nil_r in Hrel. exact Hrel.
    + apply Permutation_nil_r in Hrel. exact Hrel.
Qed.

Lemma confirmation_ignores_order_witness :
  related_deployments (affected_deployment_ids two_affected) three_listed
  ≡ₚ related_deployments (affected_deployment_ids (reverse two_affected))
       (reverse three_listed) ∧
  check_all_scaled
    (related_deployments (affected_deployment_ids two_affected) three_listed) 3
    (Z.of_nat (length two_affected))
  = check_all_scaled
      (related_deployments (affected_deployment_ids (reverse two_affected))
         (reverse three_listed)) 3
      (Z.of_nat (length (reverse two_affected))) ∧
  (related_deployments (affected_deployment_ids two_affected) three_listed = [] ↔
   related_deployments (affected_deployment_ids (reverse two_affected))
     (reverse three_listed) = []).
Proof.
  apply (confirmation_ignores_order two_affected (reverse two_affected)
           three_listed (reverse three_listed) 3).
  - symmetry. apply reverse_Permutation.
  - symmetry. apply reverse_Permutation.
Defined.

(** X10. [check_all_scaled] can only be true for an expected count between
    zero and the number of descriptors it is given; on the empty list it is
    true exactly for the expected count zero. *)
Theorem check_all_scaled_count_bounds (D : list ModelDeploymentDescription) (N K : Z) :
  (check_all_scaled D N K = true → 0 <= K <= Z.of_nat (length D)) ∧
  (check_all_scaled [] N K = true ↔ K = 0).
Proof.
  unfold check_all_scaled. rewrite !finally_deployed_qualifying. split.
  - intros H. apply Z.eqb_eq in H.
    pose proof (length_filter (qualifying N) D). lia.
  - rewrite Z.eqb_eq. simpl length. split; intros H; lia.
Qed.

Lemma check_all_scaled_count_bounds_witness :
  0 <= 1 <= Z.of_nat (length three_listed).
Proof.
  apply (proj1 (check_all_scaled_count_bounds three_listed 3 1)). reflexivity.
Defined.

(** ** The listing of [inspect_kubernetes] *)

Lemma length_append (s1 s2 : string) :
  String.length (s1 +:+ s2) = (String.length s1 + String.length s2)%nat.
Proof. induction s1 as [|ch s1 IH]; simpl; [reflexivity|]. rewrite IH. reflexivity. Qed.

Lemma length_spaces n : String.length (spaces n) = n.
Proof.
  induction n as [|n IH]; [reflexivity|].
  change (spaces (S n)) with (" " +:+ spaces n).
  rewrite length_append, IH. reflexivity.
Qed.

Lemma length_format_cell name width :
  (String.length name ≤ width)%nat →
  String.length (format_cell name width) = S width.
Proof.
  intros H. unfold format_cell. rewrite !length_append, length_spaces. simpl. lia.
Qed.

(** The width of column [i]: the longest entry of the column, the header
    included. *)
Lemma columns_width_columns (items : list (list string)) :
  columns_width items
  = (λ i, Nat.max (max_list ((λ val, String.length (column val i)) <$> items))
                  (String.length (column headers i)))
    <$> [0; 1; 2; 3; 4; 5]%nat.
Proof. reflexivity. Qed.

Lemma tabular_line_length (w0 w1 w2 w3 w4 w5 : nat) (r0 r1 r2 r3 r4 r5 : string) :
  (String.length r0 ≤ w0)%nat → (String.length r1 ≤ w1)%nat →
  (String.length r2 ≤ w2)%nat → (String.length r3 ≤ w3)%nat →
  (String.length r4 ≤ w4)%nat → (String.length r5 ≤ w5)%nat →
  String.length (tabular_line [w0; w1; w2; w3; w4; w5] [r0; r1; r2; r3; r4; r5])
  = (sum_list [w0; w1; w2; w3; w4; w5] + 11)%nat.
Proof.
  intros H0 H1 H2 H3 H4 H5. unfold tabular_line.
  change (String.length
            (format_cell r0 w0 +:+ "|" +:+ format_cell r1 w1 +:+ "|"
             +:+ format_cell r2 w2 +:+ "|" +:+ format_cell r3 w3 +:+ "|"
             +:+ format_cell r4 w4 +:+ "|" +:+ format_cell r5 w5)
          = (sum_list [w0; w1; w2; w3; w4; w5] + 11)%nat).
  rewrite !length_append, !length_format_cell by assumption. simpl. lia.
Qed.

Lemma column_length_le (items : list (list string)) row i :
  row ∈ items →
  (String.length (column row i)
   ≤ Nat.max (max_list ((λ val, String.length (column val i)) <$> items))
             (String.length (column headers i)))%nat.
Proof.
  intros Hin. etransitivity; [|apply Nat.le_max_l].
  apply max_list_elem_of_le, list_elem_of_fmap. exists row. auto.
Qed.

Lemma spaces_blanks n : spaces n = blanks n.
Proof.
  induction n as [|n IH]; [reflexivity|].
  change (spaces (S n)) with (String Ascii.Space (spaces n)).
  rewrite IH. reflexivity.
Qed.

Lemma format_cell_table_cell (rows : list (list string)) (row : list string) j :
  format_cell (nth j row "") (table_width rows j) = table_cell rows row j.
Proof. unfold format_cell, table_cell. rewrite spaces_blanks. reflexivity. Qed.

Lemma tabular_item_table_row (c : Colors.t) (d : ModelDeploymentDescription) :
  tabular_item (inspect_data_item c d) = table_row d.
Proof.
  unfold tabular_item, inspect_data_item, table_row. cbn [item_deployment item_errors].
  destruct (truthy (model_api_ok d)); reflexivity.
Qed.

Lemma tabular_items_table_rows (c : Colors.t)
    (model_deployments : list ModelDeploymentDescription) :
  tabular_item <$> (inspect_data_item c <$> model_deployments)
  = table_row <$> model_deployments.
Proof.
  induction model_deployments as [|d l IH]; [reflexivity|].
  rewrite !fmap_cons, IH, tabular_item_table_row. reflexivity.
Qed.

Lemma column_width_table_width (rows : list (list string)) j :
  Nat.max (max_list ((λ val, String.length (column val j)) <$> rows))
          (String.length (column headers j))
  = table_width rows j.
Proof.
  unfold table_width. rewrite fmap_cons.
  change (max_list (?x :: ?l)) with (Nat.max x (max_list l)).
  rewrite Nat.max_comm. unfold column. f_equal.
  - rewrite nth_lookup. reflexivity.
  - f_equal. apply list_fmap_ext. intros i row _. rewrite nth_lookup. reflexivity.
Qed.

Lemma columns_width_table_width (rows : list (list string)) :
  columns_width rows = table_width rows <$> [0; 1; 2; 3; 4; 5]%nat.
Proof.
  rewrite columns_width_columns.
  apply list_fmap_ext. intros i j _. apply column_width_table_width.
Qed.

Lemma tabular_line_table_line (rows : list (list string)) (r0 r1 r2 r3 r4 r5 : string) :
  tabular_line (columns_width rows) [r0; r1; r2; r3; r4; r5]
  = table_line rows [r0; r1; r2; r3; r4; r5].
Proof.
  rewrite columns_width_table_width. unfold table_line.
  rewrite <- !format_cell_table_cell. reflexivity.
Qed.

Lemma table_row_entries (d : ModelDeploymentDescription) :
  ∃ r0 r1 r2 r3 r4 r5, table_row d = [r0; r1; r2; r3; r4; r5].
Proof. unfold table_row. do 6 eexists. reflexivity. Qed.

Lemma table_entry_fits (rows : list (list string)) (row : list string) j :
  row ∈ table_header :: rows →
  (String.length (nth j row "") ≤ table_width rows j)%nat.
Proof.
  intros Hin. unfold table_width.
  apply max_list_elem_of_le, list_elem_of_fmap. exists row. auto.
Qed.

(** X11. In the tabular format, for a non-empty answer, the listing is the
    line of the six column titles followed by one line per deployment, in the
    order of the answer.  A line holds the six entries of its deployment
    (model, image, version, ready replicas, scale, and the error text, which
    is empty exactly when the API of the model responds), each entry whole
    and followed by blanks up to the width of its column and by one more
    blank, with a bar between neighbouring cells.  The width of a column is
    the length of its longest entry, the title included, so no entry is
    longer than its column and the padding never cuts one.  Hence all lines
    have the same length: the sum of the six widths, plus the six closing
    blanks and the five bars. *)
Theorem tabular_listing_aligned (c : Colors.t)
    (model_deployments : list ModelDeploymentDescription) :
  model_deployments ≠ [] →
  inspect_output c INSPECT_FORMAT_TABULAR model_deployments
  = table_line (table_row <$> model_deployments)
    <$> (table_header :: (table_row <$> model_deployments)) ∧
  (∀ i d, model_deployments !! i = Some d →
     inspect_output c INSPECT_FORMAT_TABULAR model_deployments !! S i
     = Some (table_line (table_row <$> model_deployments) (table_row d))) ∧
  (∀ row j, row ∈ table_header :: (table_row <$> model_deployments) →
     (String.length (nth j row "")
      ≤ table_width (table_row <$> model_deployments) j)%nat ∧
     String.length (table_cell (table_row <$> model_deployments) row j)
     = S (table_width (table_row <$> model_deployments) j)) ∧
  columns_width (tabular_item <$> (inspect_data_item c <$> model_deployments))
  = table_width (table_row <$> model_deployments) <$> [0; 1; 2; 3; 4; 5]%nat ∧
  length (inspect_output c INSPECT_FORMAT_TABULAR model_deployments)
  = S (length model_deployments) ∧
  ∀ line,
    line ∈ inspect_output c INSPECT_FORMAT_TABULAR model_deployments →
    String.length line
    = (sum_list (columns_width
                   (tabular_item <$> (inspect_data_item c <$> model_deployments)))
       + 11)%nat.
Proof.
  intros Hne. destruct model_deployments as [|d l]; [contradiction|].
  set (mds := d :: l).
  set (items := tabular_item <$> (inspect_data_item c <$> mds)).
  assert (Hout : inspect_output c INSPECT_FORMAT_TABULAR mds
                 = tabular_line (columns_width items) headers
                   :: (tabular_line (columns_width items) <$> items))
    by reflexivity.
  assert (Hitems : items = table_row <$> mds) by apply tabular_items_table_rows.
  set (rows := table_row <$> mds) in *.
  assert (Hlines : inspect_output c INSPECT_FORMAT_TABULAR mds
                   = table_line rows <$> (table_header :: rows)).
  { rewrite Hout, Hitems, fmap_cons. f_equal.
    - apply tabular_line_table_line.
    - apply list_fmap_ext. intros i row Hrow.
      unfold rows in Hrow. rewrite list_lookup_fmap in Hrow.
      destruct (mds !! i) as [d'|]; [|discriminate].
      injection Hrow as <-.
      destruct (table_row_entries d') as (r0 & r1 & r2 & r3 & r4 & r5 & ->).
      apply tabular_line_table_line. }
  split; [exact Hlines|]. split; [|split; [|split; [|split]]].
  - intros i d' Hd. rewrite Hlines, fmap_cons.
    assert (Hrow : rows !! i = Some (table_row d')).
    { unfold rows. rewrite list_lookup_fmap, Hd. reflexivity. }
    change ((table_line rows <$> rows) !! i = Some (table_line rows (table_row d'))).
    rewrite list_lookup_fmap, Hrow. reflexivity.
  - intros row j Hrow. pose proof (table_entry_fits rows row j Hrow) as Hle.
    split; [exact Hle|].
    rewrite <- format_cell_table_cell. apply length_format_cell. exact Hle.
  - rewrite Hitems. apply columns_width_table_width.
  - rewrite Hout. simpl. unfold items. rewrite !length_fmap. reflexivity.
  - rewrite Hout. intros line Hline. rewrite columns_width_columns.
    apply elem_of_cons in Hline as [->|Hline].
    + apply tabular_line_length; apply Nat.le_max_r.
    + apply list_elem_of_fmap in Hline as (row & -> & Hrow).
      pose proof Hrow as Hit. unfold items in Hit.
      apply list_elem_of_fmap in Hit as (it & Heq & _).
      rewrite Heq at 1. unfold tabular_item at 1.
      apply tabular_line_length.
      * apply (column_length_le items row 0) in Hrow. rewrite Heq in Hrow at 1. exact Hrow.
      * apply (column_length_le items row 1) in Hrow. rewrite Heq in Hrow at 1. exact Hrow.
      * apply (column_length_le items row 2) in Hrow. rewrite Heq in Hrow at 1. exact Hrow.
      * apply (column_length_le items row 3) in Hrow. rewrite Heq in Hrow at 1. exact Hrow.
      * apply (column_length_le items row 4) in Hrow. rewrite Heq in Hrow at 1. exact Hrow.
      * apply (column_length_le items row 5) in Hrow. rewrite Heq in Hrow at 1. exact Hrow.
Qed.

Lemma tabular_listing_aligned_witness :
  inspect_output ansi INSPECT_FORMAT_TABULAR listed_models
  = ["Model ID         |Image             |Version |Ready |Scale |Errors                            ";
     "income           |legion/income:1.0 |1.0     |2     |2     |                                  ";
     "recognize-digits |legion/digits:12  |12      |0     |10    |ERROR: MODEL API DOES NOT RESPOND ";
     "a                |img               |3       |1     |1     |ERROR: MODEL API DOES NOT RESPOND "] ∧
  columns_width (tabular_item <$> (inspect_data_item ansi <$> listed_models))
  = [16; 17; 7; 5; 5; 33]%nat ∧
  ∀ line,
    line ∈ inspect_output ansi INSPECT_FORMAT_TABULAR listed_models →
    String.length line = (83 + 11)%nat.
Proof.
  destruct (tabular_listing_aligned ansi listed_models ltac:(discriminate))
    as (Hlines & _ & _ & Hwidth & _ & Hlen).
  split; [|split].
  - rewrite Hlines. vm_compute. reflexivity.
  - rewrite Hwidth. vm_compute. reflexivity.
  - intros line Hline. rewrite (Hlen line Hline), Hwidth. vm_compute. reflexivity.
Defined.

(** X12. [inspect_kubernetes] makes one status query and nothing else.  When
    the query raises, nothing is printed and the error surfaces.  When it
    answers: in the colorized format an empty answer prints the single
    "cannot find any model deployments" line, and a non-empty answer prints
    the caption and one line per deployment, in the order of the answer (the
    "after filtering" line is never printed); in the tabular format an empty
    answer prints nothing, not even the header; any other format prints
    nothing. *)
Theorem inspect_kubernetes_prints srv (c : Colors.t) (a : inspect_args.t) st :
  (∀ e, inspect_reply srv (polls st) = inl e →
        inspect_kubernetes srv c a st = (Raised (ClientError e), unanswered st)) ∧
  (∀ listed, inspect_reply srv (polls st) = inr listed →
     ∃ lines st',
       inspect_kubernetes srv c a st = (Returned lines, st') ∧
       trace st' = trace st ++ [EvInspect] ∧
       polls st' = S (polls st) ∧
       (inspect_args.format a = "colorized" → listed = [] →
        lines = [Colors.WARNING c +:+ "-- cannot find any model deployments --"
                 +:+ Colors.ENDC c]) ∧
       (inspect_args.format a = "colorized" → listed ≠ [] →
        lines = (Colors.BOLD c +:+ "Model deployments:" +:+ Colors.ENDC c)
                :: ((λ d, colorized_line c (inspect_data_item c d)) <$> listed)) ∧
       (inspect_args.format a = "column" → listed = [] → lines = []) ∧
       (inspect_args.format a ≠ "colorized" → inspect_args.format a ≠ "column" →
        lines = [])).
Proof.
  split.
  - intros e Hq. unfold inspect_kubernetes, bind, inspect. rewrite Hq. reflexivity.
  - intros listed Hq. unfold inspect_kubernetes, bind, inspect. rewrite Hq.
    unfold alloc, deref, ret, log. simpl. rewrite contents_new.
    do 2 eexists. split; [reflexivity|]. simpl.
    split; [reflexivity|]. split; [reflexivity|].
    unfold inspect_output. split; [|split; [|split]].
    + intros -> ->. reflexivity.
    + intros -> Hne. destruct listed as [|d l]; [contradiction|].
      simpl. rewrite app_nil_r, <- list_fmap_compose. reflexivity.
    + intros -> ->. reflexivity.
    + intros H1 H2.
      destruct (String.eqb_spec (inspect_args.format a) INSPECT_FORMAT_COLORIZED)
        as [E|_]; [contradiction|].
      destruct (String.eqb_spec (inspect_args.format a) INSPECT_FORMAT_TABULAR)
        as [E|_]; [contradiction|]. reflexivity.
Qed.

Lemma inspect_kubernetes_prints_witness :
  ∃ lines st',
    inspect_kubernetes srv_gone ansi
      {| inspect_args.model_id := None; inspect_args.model_version := None;
         inspect_args.format := "colorized" |} init = (Returned lines, st') ∧
    length lines = 4%nat ∧ polls st' = 1%nat.
Proof.
  destruct (proj2 (inspect_kubernetes_prints srv_gone ansi
                     {| inspect_args.model_id := None;
                        inspect_args.model_version := None;
                        inspect_args.format := "colorized" |} init)
              three_listed eq_refl)
    as (lines & st' & Hrun & _ & Hp & _ & Hlines & _).
  exists lines, st'. split; [exact Hrun|]. split; [|exact Hp].
  rewrite Hlines; [reflexivity|reflexivity|discriminate].
Defined.

(** ** The activation script of [sandbox] *)

Lemma sandbox_kept os a w f :
  files w !! path_to_activate os = Some f →
  sandbox_args.force_recreate a = false →
  sandbox os a w
  = {| files := files w;
       stdout := stdout w
                 ++ ["File " +:+ path_to_activate os
                     +:+ " already existed, ignoring creation of sandbox"] |}.
Proof.
  intros Hf Hforce. unfold sandbox, path_exists. rewrite Hf, Hforce. reflexivity.
Qed.

Lemma sandbox_written os a w :
  files w !! path_to_activate os = None ∨ sandbox_args.force_recreate a = true →
  sandbox os a w
  = {| files := <[path_to_activate os :=
                    {| content := sandbox_cmd os a;
                       st_mode := Z.lor (match files w !! path_to_activate os with
                                         | Some f => st_mode f
                                         | None => create_mode os
                                         end) S_IEXEC |}]> (files w);
       stdout := stdout w
                 ++ ["Sandbox has been created!";
                     "To activate run " +:+ repr os (path_to_activate os)
                     +:+ " from command line"] |}.
Proof.
  intros H. unfold sandbox.
  assert (Hcond : path_exists (files w) (path_to_activate os)
                  && negb (sandbox_args.force_recreate a) = false).
  { destruct H as [H|H]; [unfold path_exists; rewrite H; reflexivity|].
    rewrite H. apply andb_false_r. }
  rewrite Hcond. cbv zeta. f_equal.
  unfold chmod, stat_mode, write_file. rewrite !lookup_insert_eq. simpl.
  apply insert_insert_eq.
Qed.

(** X13. When the activation script exists and [force_recreate] is not set,
    [sandbox] leaves every file as it is and prints the single line that the
    file already existed. *)
Theorem sandbox_keeps_existing_script os a w f :
  files w !! path_to_activate os = Some f →
  sandbox_args.force_recreate a = false →
  files (sandbox os a w) = files w ∧
  stdout (sandbox os a w)
  = stdout w ++ ["File " +:+ path_to_activate os
                 +:+ " already existed, ignoring creation of sandbox"].
Proof.
  intros Hf Hforce. rewrite (sandbox_kept os a w f Hf Hforce). split; reflexivity.
Qed.

Lemma sandbox_keeps_existing_script_witness :
  files (sandbox laptop sandbox_plain used_disk) = files used_disk ∧
  stdout (sandbox laptop sandbox_plain used_disk)
  = stdout used_disk ++ ["File " +:+ path_to_activate laptop
                         +:+ " already existed, ignoring creation of sandbox"].
Proof.
  apply (sandbox_keeps_existing_script laptop sandbox_plain used_disk old_script).
  - apply lookup_singleton_eq.
  - reflexivity.
Defined.




Lemma sandbox_script_exists os a w :
  ∃ f, files (sandbox os a w) !! path_to_activate os = Some f.
Proof.
  destruct (files w !! path_to_activate os) as [f|] eqn:Hf;
    [destruct (sandbox_args.force_recreate a) eqn:Hforce|].
  - rewrite (sandbox_written os a w (or_intror Hforce)). cbn [files].
    eexists. apply lookup_insert_eq.
  - exists f. rewrite (sandbox_kept os a w f Hf Hforce). exact Hf.
  - rewrite (sandbox_written os a w (or_introl Hf)). cbn [files].
    eexists. apply lookup_insert_eq.
Qed.

(** X15. After [sandbox] the activation script exists, whatever the disk
    held before; hence a second call without [force_recreate] changes no
    file and prints only that the file already existed, and a second call
    with the same arguments always leaves the files as the first call left
    them. *)
Theorem sandbox_again os a a' w :
  is_Some (files (sandbox os a w) !! path_to_activate os) ∧
  (sandbox_args.force_recreate a' = false →
   files (sandbox os a' (sandbox os a w)) = files (sandbox os a w) ∧
   stdout (sandbox os a' (sandbox os a w))
   = stdout (sandbox os a w)
     ++ ["File " +:+ path_to_activate os
         +:+ " already existed, ignoring creation of sandbox"]) ∧
  files (sandbox os a (sandbox os a w)) = files (sandbox os a w).
Proof.
  destruct (sandbox_script_exists os a w) as (f & Hf).
  split; [rewrite Hf; eexists; reflexivity|]. split.
  - intros Hforce.
    rewrite (sandbox_kept os a' (sandbox os a w) f Hf Hforce). split; reflexivity.
  - destruct (sandbox_args.force_recreate a) eqn:Hforce.
    + rewrite (sandbox_written os a (sandbox os a w) (or_intror Hforce)).
      cbn [files].
      rewrite (sandbox_written os a w (or_intror Hforce)). cbn [files].
      rewrite lookup_insert_eq, insert_insert_eq. cbn [st_mode].
      rewrite <- Z.lor_assoc, Z.lor_diag. reflexivity.
    + rewrite (sandbox_kept os a (sandbox os a w) f Hf Hforce). reflexivity.
Qed.

Lemma sandbox_again_witness :
  is_Some (files (sandbox laptop sandbox_forced used_disk)
             !! path_to_activate laptop) ∧
  files (sandbox laptop sandbox_plain (sandbox laptop sandbox_forced used_disk))
  = files (sandbox laptop sandbox_forced used_disk) ∧
  files (sandbox laptop sandbox_forced (sandbox laptop sandbox_forced used_disk))
  = files (sandbox laptop sandbox_forced used_disk).
Proof.
  destruct (sandbox_again laptop sandbox_forced sandbox_plain used_disk)
    as (H1 & H2 & H3).
  split; [exact H1|]. split; [|exact H3].
  apply H2. reflexivity.
Defined.

(** ** The image built by [build_model] *)

(** The model file that is opened: the argument when it is given and not
    empty, the environment variable otherwise. *)
Lemma build_model_opens tc a f tr :
  build_docker_client tc = None →
  (build_args.model_file a = Some f ∧ non_empty f = true) ∨
  (given (build_args.model_file a) = false ∧
   getenv_MODEL_FILE tc = Some f ∧ non_empty f = true) →
  build_model tc a tr = with_reader tc f (build_from tc a) (tr ++ [DockerClient]).
Proof.
  intros Hc Hf. unfold build_model, bindB, callB.
  rewrite Hc. simpl unit_answer. cbv iota beta zeta.
  assert (Hfile : (if given (build_args.model_file a)
                   then build_args.model_file a else getenv_MODEL_FILE tc) = Some f
                  ∧ given (Some f) = true).
  { destruct Hf as [[Ha Hn]|(Ha & He & Hn)].
    - rewrite Ha. simpl. rewrite Hn. auto.
    - rewrite Ha, He. auto. }
  destruct Hfile as [-> Hg]. rewrite Hg. reflexivity.
Qed.

(** X16. [build_model] needs a model file: when neither the argument nor the
    environment variable names one (an empty string counts as none), it
    raises "Model file has not been provided" after it has built the docker
    client and before anything is read, built or pushed. *)
Theorem build_model_needs_model_file tc a tr :
  build_docker_client tc = None →
  given (build_args.model_file a) = false →
  given (getenv_MODEL_FILE tc) = false →
  build_model tc a tr
  = (Failed "Model file has not been provided", tr ++ [DockerClient]).
Proof.
  intros Hc Ha He. unfold build_model, bindB, callB. rewrite Hc. simpl.
  rewrite Ha, He. reflexivity.
Qed.

Lemma build_model_needs_model_file_witness :
  build_model full_disk
    {| build_args.model_file := Some ""; build_args.docker_image_tag := None;
       build_args.push_to_registry := None |} []
  = (Failed "Model file has not been provided", [] ++ [DockerClient]).
Proof.
  apply build_model_needs_model_file; reflexivity.
Defined.

(** X17. When the file that the reader gives for the model file does not
    exist, [build_model] raises "Cannot find model binary" with that path:
    the model is not loaded, no image is built and nothing is pushed; the
    reader is left.  The model file is the argument when it is given and not
    empty, and the environment variable otherwise. *)
Theorem build_model_needs_binary tc a f path tr :
  build_docker_client tc = None →
  (build_args.model_file a = Some f ∧ non_empty f = true) ∨
  (given (build_args.model_file a) = false ∧
   getenv_MODEL_FILE tc = Some f ∧ non_empty f = true) →
  reader_path tc f = inr path →
  binary_exists tc path = false →
  build_model tc a tr
  = (Failed ("Cannot find model binary " +:+ path),
     tr ++ [DockerClient; ReaderEnter f; ReaderExit f]).
Proof.
  intros Hc Hf Hr He.
  rewrite (build_model_opens tc a f tr Hc Hf).
  unfold with_reader, callB, build_from. rewrite Hr, He. simpl.
  rewrite <- !app_assoc. reflexivity.
Qed.

Lemma build_model_needs_binary_witness :
  build_model workshop
    {| build_args.model_file := Some "/models/none.bin";
       build_args.docker_image_tag := None;
       build_args.push_to_registry := Some "registry:5000" |} []
  = (Failed ("Cannot find model binary " +:+ "/models/none.bin"),
     [] ++ [DockerClient; ReaderEnter "/models/none.bin";
            ReaderExit "/models/none.bin"]).
Proof.
  apply (build_model_needs_binary workshop _ "/models/none.bin" "/models/none.bin" []).
  - reflexivity.
  - left. split; reflexivity.
  - reflexivity.
  - reflexivity.
Defined.

Lemma bindB_callB {A C} e (x : A) (k : A → B C) tr :
  bindB (callB e (inr x)) k tr = k x (tr ++ [e]).
Proof. reflexivity. Qed.

Lemma bindB_askB {A C} (x : A) (k : A → B C) tr :
  bindB (askB (inr x)) k tr = k x tr.
Proof. reflexivity. Qed.

Lemma bindB_retB {A C} (x : A) (k : A → B C) tr :
  bindB (retB x) k tr = k x tr.
Proof. reflexivity. Qed.

Lemma bindB_assoc {A C D} (m : B A) (k1 : A → B C) (k2 : C → B D) tr :
  bindB (bindB m k1) k2 tr = bindB m (λ x, bindB (k1 x) k2) tr.
Proof. unfold bindB. destruct (m tr) as [[x| |] tr']; reflexivity. Qed.

(** X18. When every call answers, [build_model] returns the image that
    [build_docker_image] built, and its calls are, in order: the docker
    client, the reader, the load of the model, the build under the tag of the
    argument, or under [legion-model-<id>:<version>.<extra>] when no tag is
    given, the header with the image id, the header with the first tag of
    the image if it has one, the push if and only if a registry is given,
    and the exit of the reader. *)
Theorem build_model_builds tc a f path model_id model_version labels extra image tr :
  build_docker_client tc = None →
  (build_args.model_file a = Some f ∧ non_empty f = true) ∨
  (given (build_args.model_file a) = false ∧
   getenv_MODEL_FILE tc = Some f ∧ non_empty f = true) →
  reader_path tc f = inr path →
  binary_exists tc path = true →
  model_load tc path = inr (model_id, model_version) →
  generate_docker_labels_for_image tc path model_id a = inr labels →
  (given (build_args.docker_image_tag a) = false →
   deduce_extra_version tc = inr extra) →
  build_docker_image tc model_id path labels
    (if given (build_args.docker_image_tag a)
     then default "" (build_args.docker_image_tag a)
     else "legion-model-" +:+ model_id +:+ ":" +:+ model_version +:+ "." +:+ extra)
  = inr image →
  (given (build_args.push_to_registry a) = true →
   push_image_to_registry tc image (default "" (build_args.push_to_registry a))
   = None) →
  build_model tc a tr
  = (Built image,
     tr ++ [DockerClient; ReaderEnter f; ModelLoad path;
            DockerBuild model_id path labels
              (if given (build_args.docker_image_tag a)
               then default "" (build_args.docker_image_tag a)
               else "legion-model-" +:+ model_id +:+ ":" +:+ model_version
                    +:+ "." +:+ extra);
            Header (IMAGE_ID_LOCAL tc) (Image.id image)]
        ++ match Image.tags image with
           | tag :: _ => [Header (IMAGE_TAG_LOCAL tc) tag]
           | [] => []
           end
        ++ (if given (build_args.push_to_registry a)
            then [DockerPush image (default "" (build_args.push_to_registry a))]
            else [])
        ++ [ReaderExit f]).
Proof.
  intros Hc Hf Hr He Hl Hg Hx Hb Hp.
  rewrite (build_model_opens tc a f tr Hc Hf).
  unfold with_reader. rewrite Hr. unfold callB at 1.
  assert (Hbody : build_from tc a path (tr ++ [DockerClient] ++ [ReaderEnter f])
                  = (Built image,
                     tr ++ [DockerClient; ReaderEnter f; ModelLoad path;
                            DockerBuild model_id path labels
                              (if given (build_args.docker_image_tag a)
                               then default "" (build_args.docker_image_tag a)
                               else "legion-model-" +:+ model_id +:+ ":"
                                    +:+ model_version +:+ "." +:+ extra);
                            Header (IMAGE_ID_LOCAL tc) (Image.id image)]
                        ++ match Image.tags image with
                           | tag :: _ => [Header (IMAGE_TAG_LOCAL tc) tag]
                           | [] => []
                           end
                        ++ (if given (build_args.push_to_registry a)
                            then [DockerPush image
                                    (default "" (build_args.push_to_registry a))]
                            else []))).
  { unfold build_from. rewrite He. cbn [negb].
    rewrite Hl, bindB_callB. cbn [fst snd]. rewrite Hg, bindB_askB.
    destruct (given (build_args.docker_image_tag a)) eqn:Htag.
    - rewrite bindB_retB, Hb, bindB_callB, bindB_callB.
      destruct (Image.tags image) as [|tag tags];
        destruct (given (build_args.push_to_registry a)) eqn:Hpush;
        rewrite ?bindB_callB, ?bindB_retB, ?(Hp eq_refl);
        unfold unit_answer; rewrite ?bindB_callB, ?bindB_retB; unfold retB;
        rewrite <- ?app_assoc; reflexivity.
    - rewrite bindB_assoc, (Hx eq_refl), bindB_askB, bindB_retB, Hb,
        bindB_callB, bindB_callB.
      destruct (Image.tags image) as [|tag tags];
        destruct (given (build_args.push_to_registry a)) eqn:Hpush;
        rewrite ?bindB_callB, ?bindB_retB, ?(Hp eq_refl);
        unfold unit_answer; rewrite ?bindB_callB, ?bindB_retB; unfold retB;
        rewrite <- ?app_assoc; reflexivity. }
  rewrite <- app_assoc, Hbody. rewrite <- !app_assoc. reflexivity.
Qed.

Lemma build_model_builds_witness :
  build_model workshop
    {| build_args.model_file := Some ""; build_args.docker_image_tag := None;
       build_args.push_to_registry := Some "registry:5000" |} []
  = (Built built_image,
     [] ++ [DockerClient; ReaderEnter "/models/env.bin"; ModelLoad "/models/env.bin";
            DockerBuild "demo" "/models/env.bin" "labels" "legion-model-demo:1.0.2";
            Header "X-Legion-Image-Id" "sha256:0a1b"]
        ++ [Header "X-Legion-Image-Tag" "legion-model-demo:1.0.2"]
        ++ [DockerPush built_image "registry:5000"]
        ++ [ReaderExit "/models/env.bin"]).
Proof.
  apply (build_model_builds workshop
           {| build_args.model_file := Some ""; build_args.docker_image_tag := None;
              build_args.push_to_registry := Some "registry:5000" |}
           "/models/env.bin" "/models/env.bin" "demo" "1.0" "labels" "2"
           built_image []).
  - reflexivity.
  - right. repeat split; reflexivity.
  - reflexivity.
  - reflexivity.
  - reflexivity.
  - reflexivity.
  - intros _. reflexivity.
  - reflexivity.
  - intros _. reflexivity.
Defined.

(** X19. When the build of the image raises, [build_model] raises the same
    error: no header is sent and nothing is pushed, even if a registry is
    given, and the reader is left. *)
Theorem build_failure_pushes_nothing
    tc a f path model_id model_version labels extra e tr :
  build_docker_client tc = None →
  (build_args.model_file a = Some f ∧ non_empty f = true) ∨
  (given (build_args.model_file a) = false ∧
   getenv_MODEL_FILE tc = Some f ∧ non_empty f = true) →
  reader_path tc f = inr path →
  binary_exists tc path = true →
  model_load tc path = inr (model_id, model_version) →
  generate_docker_labels_for_image tc path model_id a = inr labels →
  (given (build_args.docker_image_tag a) = false →
   deduce_extra_version tc = inr extra) →
  build_docker_image tc model_id path labels
    (if given (build_args.docker_image_tag a)
     then default "" (build_args.docker_image_tag a)
     else "legion-model-" +:+ model_id +:+ ":" +:+ model_version +:+ "." +:+ extra)
  = inl e →
  build_model tc a tr
  = (Broke e,
     tr ++ [DockerClient; ReaderEnter f; ModelLoad path;
            DockerBuild model_id path labels
              (if given (build_args.docker_image_tag a)
               then default "" (build_args.docker_image_tag a)
               else "legion-model-" +:+ model_id +:+ ":" +:+ model_version
                    +:+ "." +:+ extra);
            ReaderExit f]).
Proof.
  intros Hc Hf Hr He Hl Hg Hx Hb.
  rewrite (build_model_opens tc a f tr Hc Hf).
  unfold with_reader. rewrite Hr. unfold callB at 1.
  assert (Hbody : build_from tc a path (tr ++ [DockerClient] ++ [ReaderEnter f])
                  = (Broke e,
                     tr ++ [DockerClient; ReaderEnter f; ModelLoad path;
                            DockerBuild model_id path labels
                              (if given (build_args.docker_image_tag a)
                               then default "" (build_args.docker_image_tag a)
                               else "legion-model-" +:+ model_id +:+ ":"
                                    +:+ model_version +:+ "." +:+ extra)])).
  { unfold build_from. rewrite He. cbn [negb].
    rewrite Hl, bindB_callB. cbn [fst snd]. rewrite Hg, bindB_askB.
    destruct (given (build_args.docker_image_tag a)) eqn:Htag.
    - rewrite bindB_retB. unfold bindB, callB. rewrite Hb.
      rewrite <- !app_assoc. reflexivity.
    - rewrite bindB_assoc, (Hx eq_refl), bindB_askB, bindB_retB.
      unfold bindB, callB. rewrite Hb. rewrite <- !app_assoc. reflexivity. }
  rewrite <- app_assoc, Hbody. rewrite <- !app_assoc. reflexivity.
Qed.

Lemma build_failure_pushes_nothing_witness :
  build_model full_disk demo_build []
  = (Broke "no space left on device",
     [] ++ [DockerClient; ReaderEnter "/models/demo.bin"; ModelLoad "/models/demo.bin";
            DockerBuild "demo" "/models/demo.bin" "labels" "demo:latest";
            ReaderExit "/models/demo.bin"]).
Proof.
  apply (build_failure_pushes_nothing full_disk demo_build
           "/models/demo.bin" "/models/demo.bin" "demo" "1.0" "labels" "2"
           "no space left on device" []).
  - reflexivity.
  - left. split; reflexivity.
  - reflexivity.
  - reflexivity.
  - reflexivity.
  - reflexivity.
  - intros H. discriminate H.
  - reflexivity.
Defined.

(** ** The expected count of the scale and deploy operations, in the wait *)

Lemma scaled_wait_poll srv a md start n st A Sn :
  heap st !! md = Some A →
  (minus srv (clock srv (ticks st)) start <= inject_Z (args.timeout a))%Q →
  inspect_reply srv (polls st) = inr Sn →
  (length (filter (qualifying (args.scale a))
             (related_deployments (affected_deployment_ids A) Sn)) = length A →
   wait_loop srv (S n) a md (scaled_callback a md) start st
   = (Returned tt, polled (affected_deployment_ids A) Sn (ticked srv st))) ∧
  (length (filter (qualifying (args.scale a))
             (related_deployments (affected_deployment_ids A) Sn)) ≠ length A →
   wait_loop srv (S n) a md (scaled_callback a md) start st
   = wait_loop srv n a md (scaled_callback a md) start
       (next srv (affected_deployment_ids A) Sn st)).
Proof.
  intros Hmd Ht Hq.
  rewrite (wait_loop_answered srv a md (scaled_callback a md) start n st Sn Ht Hq).
  cbv zeta. rewrite (contents_lookup _ _ _ Hmd).
  pose proof (proj2 (scaled_callback_count a md
                       (heap (polled (affected_deployment_ids A) Sn (ticked srv st)))
                       (S (length (heap st))))) as Hiff.
  simpl heap in Hiff. rewrite contents_polled in Hiff.
  rewrite (contents_lookup _ _ A (lookup_grown _ _ _ _ Hmd)) in Hiff.
  simpl heap. split; intros H.
  - apply Hiff in H. rewrite H. reflexivity.
  - destruct (truthy _) eqn:E; [|reflexivity].
    exfalso. apply H, Hiff. reflexivity.
Qed.

(** A request followed by the wait, with [n] polls that do not end the
    loop. *)
Lemma dispatched_wait_pending srv a st r A (cbf : loc → callback) n :
  dispatch_reply srv r = inr A →
  args.no_wait a = false →
  0 < args.timeout a →
  (∀ i, (i < n)%nat →
     pending_poll srv a (length (heap st)) (cbf (length (heap st))) A
       (clock srv (ticks st)) (S (ticks st) + i) (polls st + i)) →
  ∃ st',
    bind (dispatch srv r)
      (λ md, wait_operation_finish srv n a md (cbf md)) st
    = (Diverged, st') ∧
    trace st' = trace st ++ [EvRequest r; EvTime (clock srv (ticks st))]
                  ++ rounds srv (S (ticks st)) n ∧
    polls st' = (polls st + n)%nat.
Proof.
  intros Hd Hnw Hto Hpend. unfold bind.
  rewrite (dispatch_answered _ _ _ _ Hd).
  rewrite (wait_operation_finish_enters _ _ _ _ _ _ Hnw Hto).
  set (st0 := requested r A st).
  assert (Hmd : heap (ticked srv st0) !! length (heap st) = Some A)
    by (simpl; rewrite lookup_app_r by lia; rewrite Nat.sub_diag; reflexivity).
  destruct (wait_loop_pending srv a (length (heap st)) (cbf (length (heap st)))
              (clock srv (ticks st0)) A n (ticked srv st0) O Hmd Hpend)
    as (st_n & snaps & Hrun & _ & Hp & Htr & _).
  rewrite Nat.add_0_r in Hrun. exists st_n. split; [exact Hrun|].
  split; [|exact Hp]. rewrite Htr. simpl. rewrite <- !app_assoc. reflexivity.
Qed.

(** C9. In [scale_kubernetes] and in [deploy_kubernetes] the callback passed
    to the wait compares the number of qualifying descriptors with the length
    of the list the request returned, duplicates included.  A poll of the
    wait confirms exactly when as many affected descriptors qualify as that
    list has elements: it returns then, and goes on to sleep otherwise; so
    the operation returns at the first such poll, after [k + 1] status
    queries if [k] polls showed another number, and has not returned as long
    as the polls show another number.  When the request returns the empty
    list the first status query confirms: the operation returns after that
    query, without a sleep. *)
Theorem expected_count_is_length srv fuel a st :
  (∀ A md h r,
     contents h md = A →
     scaled_callback a md h r
     = Some (check_all_scaled (contents h r) (args.scale a) (Z.of_nat (length A))) ∧
     (truthy (scaled_callback a md h r) = true ↔
      length (filter (qualifying (args.scale a)) (contents h r)) = length A)) ∧
  (∀ A,
     dispatch_reply srv (Scale (args.model_id a) (args.scale a) (args.model_version a))
     = inr A →
     scale_kubernetes srv fuel a st
     = wait_operation_finish srv fuel a (length (heap st))
         (scaled_callback a (length (heap st)))
         (requested (Scale (args.model_id a) (args.scale a) (args.model_version a))
            A st)) ∧
  (∀ A,
     dispatch_reply srv (Deploy (args.image a) (args.model_iam_role a) (args.scale a)
                           (args.livenesstimeout a) (args.readinesstimeout a))
     = inr A →
     deploy_kubernetes srv fuel a st
     = wait_operation_finish srv fuel a (length (heap st))
         (scaled_callback a (length (heap st)))
         (requested (Deploy (args.image a) (args.model_iam_role a) (args.scale a)
                       (args.livenesstimeout a) (args.readinesstimeout a))
            A st)) ∧
  (∀ r A, heap (requested r A st) !! length (heap st) = Some A) ∧
  (∀ Sn,
     args.no_wait a = false →
     0 < args.timeout a →
     (minus srv (clock srv (S (ticks st))) (clock srv (ticks st))
      <= inject_Z (args.timeout a))%Q →
     inspect_reply srv (polls st) = inr Sn →
     (dispatch_reply srv (Scale (args.model_id a) (args.scale a)
                            (args.model_version a)) = inr [] →
      ∃ st',
        scale_kubernetes srv (S fuel) a st = (Returned tt, st') ∧
        count is_inspect (trace st') = S (count is_inspect (trace st)) ∧
        count is_sleep (trace st') = count is_sleep (trace st) ∧
        polls st' = S (polls st)) ∧
     (dispatch_reply srv (Deploy (args.image a) (args.model_iam_role a) (args.scale a)
                            (args.livenesstimeout a) (args.readinesstimeout a))
      = inr [] →
      ∃ st',
        deploy_kubernetes srv (S fuel) a st = (Returned tt, st') ∧
        count is_inspect (trace st') = S (count is_inspect (trace st)) ∧
        count is_sleep (trace st') = count is_sleep (trace st) ∧
        polls st' = S (polls st))) ∧
  (∀ A md start n st1 Sn,
     heap st1 !! md = Some A →
     (minus srv (clock srv (ticks st1)) start <= inject_Z (args.timeout a))%Q →
     inspect_reply srv (polls st1) = inr Sn →
     (length (filter (qualifying (args.scale a))
                (related_deployments (affected_deployment_ids A) Sn)) = length A →
      wait_loop srv (S n) a md (scaled_callback a md) start st1
      = (Returned tt, polled (affected_deployment_ids A) Sn (ticked srv st1))) ∧
     (length (filter (qualifying (args.scale a))
                (related_deployments (affected_deployment_ids A) Sn)) ≠ length A →
      wait_loop srv (S n) a md (scaled_callback a md) start st1
      = wait_loop srv n a md (scaled_callback a md) start
          (next srv (affected_deployment_ids A) Sn st1))) ∧
  (∀ A k Sn r run,
     (r, run) ∈ scaling_operations srv a →
     dispatch_reply srv r = inr A →
     args.no_wait a = false →
     0 < args.timeout a →
     (∀ i, (i < k)%nat →
        not_yet_scaled srv a A (clock srv (ticks st))
          (S (ticks st) + i) (polls st + i)) →
     (minus srv (clock srv (S (ticks st) + k)) (clock srv (ticks st))
      <= inject_Z (args.timeout a))%Q →
     inspect_reply srv (polls st + k) = inr Sn →
     length (filter (qualifying (args.scale a))
               (related_deployments (affected_deployment_ids A) Sn)) = length A →
     ∃ st',
       run (k + S fuel)%nat st = (Returned tt, st') ∧
       trace st' = trace st ++ [EvRequest r; EvTime (clock srv (ticks st))]
                     ++ rounds srv (S (ticks st)) k
                     ++ [EvTime (clock srv (S (ticks st) + k)); EvInspect] ∧
       polls st' = (polls st + k + 1)%nat) ∧
  (∀ A n r run,
     (r, run) ∈ scaling_operations srv a →
     dispatch_reply srv r = inr A →
     args.no_wait a = false →
     0 < args.timeout a →
     (∀ i, (i < n)%nat →
        not_yet_scaled srv a A (clock srv (ticks st))
          (S (ticks st) + i) (polls st + i)) →
     ∃ st',
       run n st = (Diverged, st') ∧
       trace st' = trace st ++ [EvRequest r; EvTime (clock srv (ticks st))]
                     ++ rounds srv (S (ticks st)) n ∧
       polls st' = (polls st + n)%nat).
Proof.
  assert (Hold : (∀ A md h r,
     contents h md = A →
     scaled_callback a md h r
     = Some (check_all_scaled (contents h r) (args.scale a) (Z.of_nat (length A))) ∧
     (truthy (scaled_callback a md h r) = true ↔
      length (filter (qualifying (args.scale a)) (contents h r)) = length A)) ∧
  (∀ A,
     dispatch_reply srv (Scale (args.model_id a) (args.scale a) (args.model_version a))
     = inr A →
     scale_kubernetes srv fuel a st
     = wait_operation_finish srv fuel a (length (heap st))
         (scaled_callback a (length (heap st)))
         (requested (Scale (args.model_id a) (args.scale a) (args.model_version a))
            A st)) ∧
  (∀ A,
     dispatch_reply srv (Deploy (args.image a) (args.model_iam_role a) (args.scale a)
                           (args.livenesstimeout a) (args.readinesstimeout a))
     = inr A →
     deploy_kubernetes srv fuel a st
     = wait_operation_finish srv fuel a (length (heap st))
         (scaled_callback a (length (heap st)))
         (requested (Deploy (args.image a) (args.model_iam_role a) (args.scale a)
                       (args.livenesstimeout a) (args.readinesstimeout a))
            A st)) ∧
  (∀ r A, heap (requested r A st) !! length (heap st) = Some A) ∧
  (∀ Sn,
     args.no_wait a = false →
     0 < args.timeout a →
     (minus srv (clock srv (S (ticks st))) (clock srv (ticks st))
      <= inject_Z (args.timeout a))%Q →
     inspect_reply srv (polls st) = inr Sn →
     (dispatch_reply srv (Scale (args.model_id a) (args.scale a)
                            (args.model_version a)) = inr [] →
      ∃ st',
        scale_kubernetes srv (S fuel) a st = (Returned tt, st') ∧
        count is_inspect (trace st') = S (count is_inspect (trace st)) ∧
        count is_sleep (trace st') = count is_sleep (trace st) ∧
        polls st' = S (polls st)) ∧
     (dispatch_reply srv (Deploy (args.image a) (args.model_iam_role a) (args.scale a)
                            (args.livenesstimeout a) (args.readinesstimeout a))
      = inr [] →
      ∃ st',
        deploy_kubernetes srv (S fuel) a st = (Returned tt, st') ∧
        count is_inspect (trace st') = S (count is_inspect (trace st)) ∧
        count is_sleep (trace st') = count is_sleep (trace st) ∧
        polls st' = S (polls st)))).
  {
  split.
  { intros A md h r <-. apply scaled_callback_count. }
  split.
  { intros A H. unfold scale_kubernetes, bind.
    rewrite (dispatch_answered _ _ _ _ H). reflexivity. }
  split.
  { intros A H. unfold deploy_kubernetes, bind.
    rewrite (dispatch_answered _ _ _ _ H). reflexivity. }
  split.
  { intros r A. simpl. rewrite lookup_app_r by lia.
    rewrite Nat.sub_diag. reflexivity. }
  intros Sn Hnw Hto Ht Hq. split; intros H.
  - destruct (scaled_wait_nothing_affected srv fuel a st
                (Scale (args.model_id a) (args.scale a) (args.model_version a))
                Sn Hnw Hto Ht Hq) as (st' & Hrun & Htr & Hp).
    exists st'. unfold scale_kubernetes, bind.
    rewrite (dispatch_answered _ _ _ _ H). split; [exact Hrun|].
    rewrite Htr, !count_app, count_first_poll_inspect, count_first_poll_sleep.
    split; [lia|]. split; [lia|exact Hp].
  - destruct (scaled_wait_nothing_affected srv fuel a st
                (Deploy (args.image a) (args.model_iam_role a) (args.scale a)
                   (args.livenesstimeout a) (args.readinesstimeout a))
                Sn Hnw Hto Ht Hq) as (st' & Hrun & Htr & Hp).
    exists st'. unfold deploy_kubernetes, bind.
    rewrite (dispatch_answered _ _ _ _ H). split; [exact Hrun|].
    rewrite Htr, !count_app, count_first_poll_inspect, count_first_poll_sleep.
    split; [lia|]. split; [lia|exact Hp]. }
  destruct Hold as (H1 & H2 & H3 & H4 & H5).
  split; [exact H1|]. split; [exact H2|]. split; [exact H3|].
  split; [exact H4|]. split; [exact H5|]. split; [|split].
  - intros A md start n st1 Sn. apply scaled_wait_poll.
  - intros A k Sn r run Hin Hd Hnw Hto Hpend Ht Hq Hscaled.
    assert (Hrun : run = λ fuel',
              bind (dispatch srv r)
                (λ md, wait_operation_finish srv fuel' a md (scaled_callback a md))).
    { unfold scaling_operations in Hin.
      apply elem_of_cons in Hin as [Hin|Hin];
        [|apply list_elem_of_singleton in Hin]; injection Hin as -> ->; reflexivity. }
    rewrite Hrun.
    apply (dispatched_wait_confirms srv a st r A (scaled_callback a) k fuel Sn
             Hd Hnw Hto); [|exact Ht|exact Hq|].
    + intros i Hi. apply not_yet_scaled_pending, Hpend, Hi.
    + intros h r' Hr Hmd. apply scaled_callback_count. rewrite Hr, Hmd.
      exact Hscaled.
  - intros A n r run Hin Hd Hnw Hto Hpend.
    assert (Hrun : run = λ fuel',
              bind (dispatch srv r)
                (λ md, wait_operation_finish srv fuel' a md (scaled_callback a md))).
    { unfold scaling_operations in Hin.
      apply elem_of_cons in Hin as [Hin|Hin];
        [|apply list_elem_of_singleton in Hin]; injection Hin as -> ->; reflexivity. }
    rewrite Hrun.
    apply (dispatched_wait_pending srv a st r A (scaled_callback a) n Hd Hnw Hto).
    intros i Hi. apply not_yet_scaled_pending, Hpend, Hi.
Qed.

Lemma expected_count_is_length_witness :
  length twice_affected = 2%nat ∧
  size (affected_deployment_ids twice_affected) = 1%nat ∧
  ∃ st',
    scale_kubernetes srv_twice (1 + 4) (cli_args false 5 3) init
    = (Returned tt, st') ∧
    trace st' = trace init
                  ++ [EvRequest (Scale "m" 3 None); EvTime (clock srv_twice (ticks init))]
                  ++ rounds srv_twice (S (ticks init)) 1
                  ++ [EvTime (clock srv_twice (S (ticks init) + 1)); EvInspect] ∧
    polls st' = (polls init + 1 + 1)%nat.
Proof.
  split; [reflexivity|]. split; [vm_compute; reflexivity|].
  destruct (expected_count_is_length srv_twice 3 (cli_args false 5 3) init)
    as (_ & _ & _ & _ & _ & _ & Hconfirm & _).
  apply (Hconfirm twice_affected 1%nat
           [deployment "a" 3 (Some true); deployment "a" 3 (Some true)]
           (Scale "m" 3 None) (λ fuel, scale_kubernetes srv_twice fuel (cli_args false 5 3))).
  - left.
  - reflexivity.
  - reflexivity.
  - reflexivity.
  - intros i Hi. assert (i = O) as -> by lia. split.
    + apply Qle_bool_iff. reflexivity.
    + eexists. split; [reflexivity|]. vm_compute. discriminate.
  - apply Qle_bool_iff. reflexivity.
  - reflexivity.
  - vm_compute. reflexivity.
Defined.
